(** * LinkedIn Prospect Finder ([app.py]): search adapter and flow controller

    A shallow embedding of the two pieces of [app.py] that carry behaviour:

    - the Exa search tool [search_and_get_contents_tool] (lines 44-64), which
      issues one call to the search provider and serialises the hits into a
      tagged string;
    - the Streamlit script itself (lines 18-197), which is re-executed from
      top to bottom on every user interaction over a per-session state
      holding [results] and [is_running].

    The external collaborators (the Exa client, [crew.kickoff], the secret
    store, the widgets) are arguments of the embedded functions: what they
    answer is an input, what the code does with the answer is the model. *)

From Stdlib Require Import Ascii.
From stdpp Require Import base option list strings pretty gmap.

(** ** Python string helpers used by [app.py] *)

Module PyStr.

(** [sep.join(parts)]. *)
Fixpoint join (sep : string) (parts : list string) : string :=
  match parts with
  | [] => ""
  | [p] => p
  | p :: rest => p +:+ sep +:+ join sep rest
  end.

(** [enumerate(xs, start)]. *)
Fixpoint enumerate_from {A} (start : nat) (xs : list A) : list (nat * A) :=
  match xs with
  | [] => []
  | x :: rest => (start, x) :: enumerate_from (S start) rest
  end.

Definition enumerate {A} (xs : list A) : list (nat * A) := enumerate_from 0 xs.

(** [str(n)] for a non-negative [int]: its decimal digits. *)
Definition str_of_nat (n : nat) : string := pretty n.

(** The concatenation of a list of strings, the reference for [''.join]. *)
Fixpoint concat_all (parts : list string) : string :=
  match parts with
  | [] => ""
  | p :: rest => p +:+ concat_all rest
  end.

(** The truth value of a [str]: false exactly for the empty string. *)
Definition truthy (s : string) : bool :=
  match s with "" => false | String _ _ => true end.

(** [s.startswith(p)]. *)
Fixpoint startswith (p s : string) : bool :=
  match p, s with
  | "", _ => true
  | String a p', String b s' => if decide (a = b) then startswith p' s' else false
  | String _ _, "" => false
  end.

(** [s.replace(old, new)]: the occurrences of [old] are replaced from left
    to right, without overlap. [skip] counts the characters of a match that
    are still to be dropped. For an empty [old], Python puts [new] before
    every character and at the end. *)
Fixpoint replace_go (old new : string) (skip : nat) (s : string) : string :=
  match s with
  | "" => match old with "" => new | String _ _ => "" end
  | String c rest =>
      match skip with
      | S k => replace_go old new k rest
      | 0 =>
          if startswith old s
          then match old with
               | "" => new +:+ String c (replace_go old new 0 rest)
               | String _ old' => new +:+ replace_go old new (String.length old') rest
               end
          else String c (replace_go old new 0 rest)
      end
  end.

Definition replace (old new s : string) : string := replace_go old new 0 s.

(** Applies [f] to every character. *)
Fixpoint map_chars (f : ascii → ascii) (s : string) : string :=
  match s with
  | "" => ""
  | String c rest => String (f c) (map_chars f rest)
  end.

(** The membership test [c in s] for a one-character [c]. *)
Fixpoint has_char (c : ascii) (s : string) : bool :=
  match s with
  | "" => false
  | String d rest => if decide (c = d) then true else has_char c rest
  end.

(** [str.lower] on ASCII text: the letters A-Z go to a-z, every other
    character below 128 is kept. *)
Definition lower_ascii_char (c : ascii) : ascii :=
  let n := nat_of_ascii c in
  if decide (65 ≤ n ≤ 90) then ascii_of_nat (n + 32) else c.

Definition lower_ascii (s : string) : string := map_chars lower_ascii_char s.

(** The capital letters A-Z. *)
Definition is_upper (c : ascii) : Prop := 65 ≤ nat_of_ascii c ≤ 90.

End PyStr.

(** ** The search adapter (lines 44-64) *)

Module SearchAdapter.
Import PyStr.

(** One hit of the provider's response, with the three attributes the
    adapter reads: two strings and a sequence of strings. *)
Record Result := mkResult {
  title : string;
  url : string;
  highlights : list string
}.

Record SearchResponse := mkResponse { results : list Result }.

(** The arguments of [exa.search_and_contents]. *)
Record SearchRequest := mkRequest {
  query : string;
  type : string;
  num_results : nat;
  want_highlights : bool
}.

(** What the provider raised, as its message. *)
Definition ProviderError := string.

(** The Exa client: the answer to a request is a response or an exception. *)
Definition Exa := SearchRequest → ProviderError + SearchResponse.

(** The three adjacent f-strings of lines 58-60 for one [(idx, eachResult)]. *)
Definition title_segment (idx : nat) (eachResult : Result) : string :=
  "<Title id=" +:+ str_of_nat idx +:+ ">" +:+ title eachResult +:+ "</Title>".

Definition url_segment (idx : nat) (eachResult : Result) : string :=
  "<URL id=" +:+ str_of_nat idx +:+ ">" +:+ url eachResult +:+ "</URL>".

Definition highlight_segment (idx : nat) (eachResult : Result) : string :=
  "<Highlight id=" +:+ str_of_nat idx +:+ ">"
    +:+ join "" (highlights eachResult) +:+ "</Highlight>".

Definition triple (idx : nat) (eachResult : Result) : string :=
  title_segment idx eachResult
    +:+ url_segment idx eachResult
    +:+ highlight_segment idx eachResult.

(** The list comprehension of lines 57-62, before the join. *)
Definition triples (response : SearchResponse) : list string :=
  (λ '(idx, eachResult), triple idx eachResult) <$> enumerate (results response).

(** The same comprehension over hits numbered from [start]. *)
Definition triples_from (start : nat) (hits : list Result) : list string :=
  (λ '(idx, eachResult), triple idx eachResult) <$> enumerate_from start hits.

Definition parsedResult (response : SearchResponse) : string :=
  join "" (triples response).

(** Lines 50-55: the one request the tool builds from its argument. *)
Definition request_for (question : string) : SearchRequest :=
  {| query := question; type := "neural"; num_results := 3;
     want_highlights := true |}.

(** The tool: the requests it sent to the provider, in order, and either the
    exception that left the function or the returned string. There is no
    [try] in the body, so an exception of the provider leaves the tool. *)
Definition search_and_get_contents_tool (exa : Exa) (question : string)
  : list SearchRequest * (ProviderError + string) :=
  let request := request_for question in
  match exa request with
  | inl e => ([request], inl e)
  | inr response => ([request], inr (parsedResult response))
  end.

(** A blob made of exactly three triples with indices 0, 1 and 2. *)
Definition three_triples (blob : string) : Prop :=
  ∃ r0 r1 r2, blob = triple 0 r0 +:+ triple 1 r1 +:+ triple 2 r2.

(** A provider that answers every request with the single hit
    [{title: A, url: u1, highlights: [h1]}]. *)
Definition one_hit : SearchResponse :=
  {| results := [ {| title := "A"; url := "u1"; highlights := ["h1"] |} ] |}.

Definition exa_one_hit : Exa := λ _, inr one_hit.

(** A provider that answers every request with three hits. *)
Definition three_hits : SearchResponse :=
  {| results :=
       [ {| title := "A"; url := "u1"; highlights := ["h1"] |};
         {| title := "B"; url := "u2"; highlights := ["h2a"; "h2b"] |};
         {| title := "C"; url := "u3"; highlights := [] |} ] |}.

Definition exa_three_hits : Exa := λ _, inr three_hits.

(** A provider whose call fails. *)
Definition exa_timeout : Exa := λ _, inl "Request timed out".

End SearchAdapter.

(** ** The Streamlit script (lines 18-197) *)

Module FlowController.
Import PyStr.

(** What the script takes from outside its own text: the object returned by
    [crew.kickoff] with its truth value and its [str()], Python's
    [str.lower] (whose case tables belong to the interpreter), and the text
    of the [KeyError] that the secret store raises for a missing key. *)
Class Runtime := {
  CrewOutput : Type;
  bool_of : CrewOutput → bool;
  str_of : CrewOutput → string;
  lower : string → string;
  key_error_text : string → string
}.

(** Exceptions that are instances of [Exception]. *)
Inductive Exception :=
| KeyError (key : string)
| StreamlitSecretNotFoundError (message : string)
| OtherException (message : string).

(** What leaves a block of the script: an [Exception], or one of
    Streamlit's two control-flow exceptions raised by [st.rerun()] and
    [st.stop()], which are not instances of [Exception]. *)
Inductive Raised :=
| RerunException
| StopException
| Exc (e : Exception).

Inductive Outcome (A : Type) :=
| Return (a : A)
| Raise (r : Raised).
Arguments Return {A} a.
Arguments Raise {A} r.

Inductive ButtonId := FindProspects | ClearResults.

Inductive StaticText :=
| Tagline | HowItWorks | NextSteps | ToolInformation | Requirements | Tips.

(** The calls a run makes, in order: the elements it renders and the
    calls to the outside. *)
Inductive Element :=
| st_title
| st_static (which : StaticText)
| st_subheader (body : string)
| st_markdown (body : string)
| st_error (body : string)
| st_info (body : string)
| st_code (body : string)
| st_success (body : string)
| st_text_input (label : string)
| st_button (which : ButtonId) (disabled : bool)
| st_spinner (text : string)
| st_download_button (data file_name mime : string)
| os_environ_set (key value : string)
| call_setup_crew
| call_kickoff (company : string).

Section WithRuntime.
Context `{RT : Runtime}.

(** [st.session_state] as the code finds it: a key may be absent. For
    [raw_results], [Some None] is the key bound to Python's [None]. *)
Record RawSession := mkRaw {
  raw_results : option (option CrewOutput);
  raw_is_running : option bool
}.

(** [st.session_state] once lines 19-22 have run. *)
Record SessionState := mkSession {
  results : option CrewOutput;
  is_running : bool
}.

(** Lines 19-22. *)
Definition initialize_session_state (raw : RawSession) : SessionState :=
  {| results := match raw_results raw with None => None | Some r => r end;
     is_running := match raw_is_running raw with None => false | Some b => b end |}.

(** The truth value of [st.session_state.results]. *)
Definition results_truthy (s : SessionState) : bool :=
  match results s with None => false | Some r => bool_of r end.

(** A run of (a part of) the script: from the session state, what it
    returned or raised, the session state it left, and the calls made. *)
Definition Script (A : Type) : Type :=
  SessionState → Outcome A * SessionState * list Element.

Definition ret {A} (a : A) : Script A := λ s, (Return a, s, []).

Definition bind {A B} (m : Script A) (k : A → Script B) : Script B :=
  λ s,
    match m s with
    | (Return a, s1, out1) =>
        let '(r, s2, out2) := k a s1 in (r, s2, out1 ++ out2)
    | (Raise r, s1, out1) => (Raise r, s1, out1)
    end.

Definition emit (e : Element) : Script unit := λ s, (Return tt, s, [e]).

Definition raise {A} (r : Raised) : Script A := λ s, (Raise r, s, []).

Definition get_state : Script SessionState := λ s, (Return s, s, []).

Definition set_results (r : option CrewOutput) : Script unit :=
  λ s, (Return tt, {| results := r; is_running := is_running s |}, []).

Definition set_is_running (b : bool) : Script unit :=
  λ s, (Return tt, {| results := results s; is_running := b |}, []).

(** [try: body / except KeyError as e: handler(e)]. *)
Definition try_except_KeyError {A} (body : Script A)
    (handler : Exception → Script A) : Script A :=
  λ s,
    match body s with
    | (Raise (Exc (KeyError k)), s1, out1) =>
        let '(r, s2, out2) := handler (KeyError k) s1 in (r, s2, out1 ++ out2)
    | other => other
    end.

(** [try: body / except Exception as e: handler(e)]. *)
Definition try_except_Exception {A} (body : Script A)
    (handler : Exception → Script A) : Script A :=
  λ s,
    match body s with
    | (Raise (Exc e), s1, out1) =>
        let '(r, s2, out2) := handler e s1 in (r, s2, out1 ++ out2)
    | other => other
    end.

#[global] Instance script_ret : MRet Script := @ret.
#[global] Instance script_bind : MBind Script := λ A B k m, bind m k.

(** What the browser sends with the run: the value of the text field,
    and whether the run was triggered by a click on one of the buttons. *)
Record Inputs := mkInputs {
  company_name : string;
  find_clicked : bool;
  clear_clicked : bool
}.

(** [st.button(..., disabled=d)]: renders the button and returns whether
    it was clicked; a disabled button cannot be clicked. *)
Definition button (which : ButtonId) (disabled clicked : bool) : Script bool :=
  emit (st_button which disabled);;
  mret (clicked && negb disabled).

(** The crew object: [kickoff] answers with its output or raises. *)
Definition Crew : Type := string → Exception + CrewOutput.

(** The outside of the script for one run: the secret store and what
    [setup_crew()] gives. The store is the content of the secrets file, or,
    when no secrets file is found, the message of the exception that every
    access to [st.secrets] then raises. *)
Record World := mkWorld {
  secrets_store : string + gmap string string;
  crew_setup : Exception + Crew
}.

(** The keys the store binds; none when there is no secrets file. *)
Definition secrets (w : World) : gmap string string :=
  match secrets_store w with
  | inl _ => ∅
  | inr store => store
  end.

(** [str(e)]. *)
Definition str_of_exception (e : Exception) : string :=
  match e with
  | KeyError k => key_error_text k
  | StreamlitSecretNotFoundError message => message
  | OtherException message => message
  end.

(** [st.secrets[key]]: the value of [key]; a [KeyError] when the store
    does not bind it; a [StreamlitSecretNotFoundError] (a
    [FileNotFoundError], no [KeyError]) when there is no secrets file. The
    trace records the calls of the script: what Streamlit does on its own
    while it reads the store is not part of it. *)
Definition secret (w : World) (key : string) : Script string :=
  match secrets_store w with
  | inl message => raise (Exc (StreamlitSecretNotFoundError message))
  | inr store =>
      match store !! key with
      | Some v => mret v
      | None => raise (Exc (KeyError key))
      end
  end.

Definition st_rerun {A} : Script A := raise RerunException.
Definition st_stop {A} : Script A := raise StopException.

(** The line feed and the double quote, as one-character strings. *)
Definition LF : string := String "010" "".
Definition DQUOTE : string := String "034" "".

(** The triple-quoted string of lines 36-40: four lines, each indented by
    four blanks, between the line feed after the opening quotes and the
    indentation before the closing ones. *)
Definition secrets_toml_template : string :=
  LF +:+ "    # .streamlit/secrets.toml"
  +:+ LF +:+ "    OPENAI_API_KEY = " +:+ DQUOTE +:+ "your-openai-api-key" +:+ DQUOTE
  +:+ LF +:+ "    EXA_API_KEY = " +:+ DQUOTE +:+ "your-exa-api-key" +:+ DQUOTE
  +:+ LF +:+ "    ".

(** Lines 14-16. *)
Definition page_header : Script unit :=
  emit st_title;;
  emit (st_static Tagline).

(** Lines 25-41. *)
Definition api_key_setup (w : World) : Script (string * string) :=
  try_except_KeyError
    (openai_api_key ← secret w "OPENAI_API_KEY";
     exa_api_key ← secret w "EXA_API_KEY";
     emit (os_environ_set "OPENAI_API_KEY" openai_api_key);;
     emit (os_environ_set "EXA_API_KEY" exa_api_key);;
     mret (openai_api_key, exa_api_key))
    (λ e,
     emit (st_error ("Missing API key in secrets: " +:+ str_of_exception e));;
     emit (st_info "Please add your API keys to Streamlit secrets:");;
     emit (st_code secrets_toml_template);;
     st_stop).

(** Lines 126-147: the left column; returns [search_button]. *)
Definition column1 (inp : Inputs) : Script bool :=
  emit (st_subheader "Company Search");;
  emit (st_text_input "Enter Company Name:");;
  s ← get_state;
  search_button ← button FindProspects
                    (negb (truthy (company_name inp)) || is_running s)
                    (find_clicked inp);
  (if is_running s
   then emit (st_info "Searching for prospects... This may take a few minutes.")
   else mret tt);;
  (if results_truthy s
   then clear ← button ClearResults false (clear_clicked inp);
        if clear : bool
        then set_results None;; st_rerun
        else mret tt
   else mret tt);;
  mret search_button.

(** Lines 149-162: the right column. *)
Definition column2 : Script unit :=
  emit (st_subheader "How it works");;
  emit (st_static HowItWorks).

(** Lines 165-167. *)
Definition on_submit (inp : Inputs) (search_button : bool) : Script unit :=
  if search_button && truthy (company_name inp)
  then set_is_running true;; st_rerun
  else mret tt.

(** [setup_crew()] and [crew.kickoff({"company": company})]. *)
Definition setup_crew (w : World) : Script Crew :=
  emit call_setup_crew;;
  match crew_setup w with
  | inl e => raise (Exc e)
  | inr crew => mret crew
  end.

Definition kickoff (crew : Crew) (company : string) : Script CrewOutput :=
  emit (call_kickoff company);;
  match crew company with
  | inl e => raise (Exc e)
  | inr result => mret result
  end.

(** What lines 172-173 get for [company]: the exception of either call,
    or the output of [kickoff]. *)
Definition crew_call (w : World) (company : string) : Exception + CrewOutput :=
  match crew_setup w with
  | inl e => inl e
  | inr crew => crew company
  end.

(** Lines 169-182. *)
Definition while_running (w : World) (inp : Inputs) : Script unit :=
  s ← get_state;
  if is_running s
  then try_except_Exception
         (emit (st_spinner ("Searching for prospects at " +:+ company_name inp +:+ "..."));;
          crew ← setup_crew w;
          result ← kickoff crew (company_name inp);
          set_results (Some result);;
          set_is_running false;;
          st_rerun)
         (λ e,
          emit (st_error ("An error occurred: " +:+ str_of_exception e));;
          set_is_running false;;
          st_rerun)
  else mret tt.

(** Line 195. *)
Definition file_name (company : string) : string :=
  "linkedin_prospects_" +:+ replace " " "_" (lower company) +:+ ".md".

(** Lines 185-215. *)
Definition display_results (inp : Inputs) : Script unit :=
  s ← get_state;
  match results s with
  | Some r =>
      if bool_of r
      then emit (st_subheader "Prospect Results");;
           emit (st_markdown (str_of r));;
           emit (st_download_button (str_of r) (file_name (company_name inp))
                   "text/markdown");;
           emit (st_success "Prospect search completed successfully!");;
           emit (st_static NextSteps)
      else mret tt
  | None => mret tt
  end.

(** Lines 218-248. *)
Definition sidebar : Script unit :=
  emit (st_static ToolInformation);;
  emit (st_static Requirements);;
  emit (st_static Tips).

(** Lines 123-248: everything below the API key setup. *)
Definition main_interface (w : World) (inp : Inputs) : Script unit :=
  search_button ← column1 inp;
  column2;;
  on_submit inp search_button;;
  while_running w inp;;
  display_results inp;;
  sidebar.

(** One execution of [app.py] from top to bottom, after lines 19-22. *)
Definition script (w : World) (inp : Inputs) : Script unit :=
  page_header;;
  api_key_setup w;;
  main_interface w inp.

Definition run (w : World) (inp : Inputs) (raw : RawSession)
  : Outcome unit * SessionState * list Element :=
  script w inp (initialize_session_state raw).

(** After [st.rerun()] the script starts again with the same value in
    the text field and no button clicked. *)
Definition after_rerun (inp : Inputs) : Inputs :=
  {| company_name := company_name inp; find_clicked := false; clear_clicked := false |}.

(** One user interaction: the run it triggers and the runs that
    [st.rerun()] chains to it, at most [fuel] of them. The result is the
    outcome of the last run (none when the fuel ran out first), the
    session state and all calls made. *)
Fixpoint interact (fuel : nat) (w : World) (inp : Inputs) (s : SessionState)
  : option (Outcome unit) * SessionState * list Element :=
  match fuel with
  | 0 => (None, s, [])
  | S fuel' =>
      match script w inp s with
      | (Raise RerunException, s1, out1) =>
          let '(r, s2, out2) := interact fuel' w (after_rerun inp) s1 in
          (r, s2, out1 ++ out2)
      | (r, s1, out1) => (Some r, s1, out1)
      end
  end.

(** The three states of the controller, read off the session state:
    running while the flag is set, idle when it is not, and displaying when
    idle with results to show. *)
Definition running (s : SessionState) : bool := is_running s.

Definition idle (s : SessionState) : bool := negb (is_running s).

Definition displaying (s : SessionState) : bool :=
  negb (is_running s) && results_truthy s.

Definition is_kickoff (e : Element) : bool :=
  match e with call_kickoff _ => true | _ => false end.

Definition is_widget (e : Element) : bool :=
  match e with
  | st_text_input _ | st_button _ _ | st_download_button _ _ _ => true
  | _ => false
  end.

(** The number of [crew.kickoff] calls among the calls of a run. *)
Fixpoint kickoffs (out : list Element) : nat :=
  match out with
  | [] => 0
  | e :: rest => (if is_kickoff e then 1 else 0) + kickoffs rest
  end.

(** The companies [kickoff] was called with, in order. *)
Fixpoint kickoff_companies (out : list Element) : list string :=
  match out with
  | [] => []
  | call_kickoff company :: rest => company :: kickoff_companies rest
  | _ :: rest => kickoff_companies rest
  end.

(** The downloads offered, in order: the data and the file name of each
    download button. *)
Fixpoint downloads (out : list Element) : list (string * string) :=
  match out with
  | [] => []
  | st_download_button data name _ :: rest => (data, name) :: downloads rest
  | _ :: rest => downloads rest
  end.

(** *** The script as a decision table

    The definitions below spell out, case by case, what one execution of
    the script does; [FlowControllerSpec.main_interface_run] and
    [FlowControllerSpec.script_run] prove them equal to the script above. *)

(** The [disabled] argument of the Find Prospects button (line 137). *)
Definition find_disabled (inp : Inputs) (s : SessionState) : bool :=
  negb (truthy (company_name inp)) || is_running s.

Definition column1_elements (inp : Inputs) (s : SessionState) : list Element :=
  [ st_subheader "Company Search";
    st_text_input "Enter Company Name:";
    st_button FindProspects (find_disabled inp s) ]
  ++ (if is_running s
      then [st_info "Searching for prospects... This may take a few minutes."]
      else [])
  ++ (if results_truthy s then [st_button ClearResults false] else []).

Definition column2_elements : list Element :=
  [ st_subheader "How it works"; st_static HowItWorks ].

(** The calls of lines 171-173. *)
Definition crew_events (w : World) (inp : Inputs) : list Element :=
  st_spinner ("Searching for prospects at " +:+ company_name inp +:+ "...")
  :: call_setup_crew
  :: match crew_setup w with
     | inl _ => []
     | inr _ => [call_kickoff (company_name inp)]
     end.

Definition display_elements (inp : Inputs) (s : SessionState) : list Element :=
  match results s with
  | Some r =>
      if bool_of r
      then [ st_subheader "Prospect Results";
             st_markdown (str_of r);
             st_download_button (str_of r) (file_name (company_name inp))
               "text/markdown";
             st_success "Prospect search completed successfully!";
             st_static NextSteps ]
      else []
  | None => []
  end.

Definition sidebar_elements : list Element :=
  [ st_static ToolInformation; st_static Requirements; st_static Tips ].

Definition main_interface_cases (w : World) (inp : Inputs) (s : SessionState)
  : Outcome unit * SessionState * list Element :=
  if results_truthy s && clear_clicked inp then
    (Raise RerunException,
     {| results := None; is_running := is_running s |},
     column1_elements inp s)
  else if find_clicked inp && negb (find_disabled inp s) && truthy (company_name inp) then
    (Raise RerunException,
     {| results := results s; is_running := true |},
     column1_elements inp s ++ column2_elements)
  else if is_running s then
    match crew_call w (company_name inp) with
    | inr result =>
        (Raise RerunException,
         {| results := Some result; is_running := false |},
         column1_elements inp s ++ column2_elements ++ crew_events w inp)
    | inl e =>
        (Raise RerunException,
         {| results := results s; is_running := false |},
         column1_elements inp s ++ column2_elements ++ crew_events w inp
         ++ [st_error ("An error occurred: " +:+ str_of_exception e)])
    end
  else
    (Return tt, s,
     column1_elements inp s ++ column2_elements
     ++ display_elements inp s ++ sidebar_elements).

Definition setup_elements (openai_api_key exa_api_key : string) : list Element :=
  [ st_title; st_static Tagline;
    os_environ_set "OPENAI_API_KEY" openai_api_key;
    os_environ_set "EXA_API_KEY" exa_api_key ].

Definition missing_key_elements (key : string) : list Element :=
  [ st_title; st_static Tagline;
    st_error ("Missing API key in secrets: " +:+ key_error_text key);
    st_info "Please add your API keys to Streamlit secrets:";
    st_code secrets_toml_template ].

Definition script_cases (w : World) (inp : Inputs) (s : SessionState)
  : Outcome unit * SessionState * list Element :=
  match secrets_store w with
  | inl message =>
      (Raise (Exc (StreamlitSecretNotFoundError message)), s,
       [st_title; st_static Tagline])
  | inr store =>
      match store !! "OPENAI_API_KEY", store !! "EXA_API_KEY" with
      | Some openai_api_key, Some exa_api_key =>
          let '(r, s', out) := main_interface_cases w inp s in
          (r, s', setup_elements openai_api_key exa_api_key ++ out)
      | None, _ => (Raise StopException, s, missing_key_elements "OPENAI_API_KEY")
      | Some _, None => (Raise StopException, s, missing_key_elements "EXA_API_KEY")
      end
  end.

(** *** Views of a trace and of a whole interaction *)

(** The bodies of the [st.error] elements, in order. *)
Fixpoint errors (out : list Element) : list string :=
  match out with
  | [] => []
  | st_error body :: rest => body :: errors rest
  | _ :: rest => errors rest
  end.

(** The download that lines 185-197 offer for the stored results. *)
Definition offered (company : string) (s : SessionState) : list (string * string) :=
  match results s with
  | Some r => if bool_of r then [(str_of r, file_name company)] else []
  | None => []
  end.

(** The run clears the results: Clear Results is rendered and clicked. *)
Definition clears (inp : Inputs) (s : SessionState) : bool :=
  results_truthy s && clear_clicked inp.

Definition after_clear (inp : Inputs) (s : SessionState) : SessionState :=
  if clears inp s
  then {| results := None; is_running := is_running s |}
  else s.

(** The interaction reaches lines 170-177: the flag is already set, or the
    first run sets it (a click on Find Prospects with a non-empty company
    name, in a run that does not clear the results first). *)
Definition searches (inp : Inputs) (s : SessionState) : bool :=
  is_running s
  || (negb (clears inp s) && find_clicked inp && truthy (company_name inp)).

(** The session state in which an interaction ends when no key is missing;
    [FlowControllerSpec.interact_final] proves it of [interact]. *)
Definition interaction_final (w : World) (inp : Inputs) (s : SessionState)
  : SessionState :=
  if searches inp s
  then {| results := match crew_call w (company_name inp) with
                     | inr result => Some result
                     | inl _ => results (after_clear inp s)
                     end;
          is_running := false |}
  else after_clear inp s.

End WithRuntime.

(** A runtime to evaluate the script on ASCII text: [kickoff] returns its
    text as a [str], which is true when not empty; a [KeyError] prints its
    key between quotes. *)
Definition ascii_runtime : Runtime :=
  {| CrewOutput := string;
     bool_of := truthy;
     str_of := λ text, text;
     lower := lower_ascii;
     key_error_text := λ key, "'" +:+ key +:+ "'" |}.

(** For [ascii_runtime]: a crew that reports on the company it is asked
    about, and a crew whose [kickoff] raises. *)
Definition reporting_crew : @Crew ascii_runtime :=
  λ company, inr ("Prospects at " +:+ company).

Definition failing_crew : @Crew ascii_runtime :=
  λ _, inl (OtherException "Connection error").

(** A session state of [ascii_runtime]. *)
Definition ascii_session (r : option string) (running : bool)
  : @SessionState ascii_runtime :=
  @mkSession ascii_runtime r running.

(** Worlds with both keys in the secret store. *)
Definition reporting_world : @World ascii_runtime :=
  {| secrets_store := inr {[ "OPENAI_API_KEY" := "sk-openai"; "EXA_API_KEY" := "exa-key" ]};
     crew_setup := inr reporting_crew |}.

Definition failing_world : @World ascii_runtime :=
  {| secrets_store := inr {[ "OPENAI_API_KEY" := "sk-openai"; "EXA_API_KEY" := "exa-key" ]};
     crew_setup := inr failing_crew |}.

(** A world whose [setup_crew()] raises. *)
Definition broken_crew_world : @World ascii_runtime :=
  {| secrets_store := inr {[ "OPENAI_API_KEY" := "sk-openai"; "EXA_API_KEY" := "exa-key" ]};
     crew_setup := inl (OtherException "Invalid model") |}.

(** A store that lacks the search provider's key. *)
Definition no_exa_key_world : @World ascii_runtime :=
  {| secrets_store := inr {[ "OPENAI_API_KEY" := "sk-openai" ]};
     crew_setup := inr reporting_crew |}.

(** A machine without a secrets file. *)
Definition no_secrets_file_world : @World ascii_runtime :=
  {| secrets_store := inl "No secrets found.";
     crew_setup := inr reporting_crew |}.

End FlowController.

(** * Properties *)

(** ** Facts about the string helpers *)

Module PyStrFacts.
Import PyStr.

Lemma append_cons (c : ascii) (s t : string) :
  String c s +:+ t = String c (s +:+ t).
Proof. reflexivity. Qed.

Lemma append_empty_r (s : string) : s +:+ "" = s.
Proof.
  induction s as [|c s IH]; [done|].
  by rewrite append_cons, IH.
Qed.

Lemma append_assoc (a b c : string) : (a +:+ b) +:+ c = a +:+ b +:+ c.
Proof.
  induction a as [|x a IH]; [done|].
  by rewrite !append_cons, IH.
Qed.

Lemma length_append (a b : string) :
  String.length (a +:+ b) = String.length a + String.length b.
Proof.
  induction a as [|x a IH]; [done|].
  rewrite append_cons. simpl. by rewrite IH.
Qed.

(** Joining with the empty separator is plain concatenation. *)
Lemma join_empty_sep (parts : list string) : join "" parts = concat_all parts.
Proof.
  induction parts as [|p [|q rest] IH]; simpl in *.
  - done.
  - by rewrite append_empty_r.
  - by rewrite IH.
Qed.

Lemma concat_all_app (xs ys : list string) :
  concat_all (xs ++ ys) = concat_all xs +:+ concat_all ys.
Proof.
  induction xs as [|x xs IH]; simpl; [done|].
  by rewrite IH, append_assoc.
Qed.

Lemma enumerate_from_app {A} (k : nat) (xs ys : list A) :
  enumerate_from k (xs ++ ys)
  = enumerate_from k xs ++ enumerate_from (k + length xs) ys.
Proof.
  revert k; induction xs as [|x xs IH]; intros k; simpl.
  - by rewrite Nat.add_0_r.
  - rewrite IH. do 3 f_equal. lia.
Qed.

Lemma length_enumerate_from {A} (k : nat) (xs : list A) :
  length (enumerate_from k xs) = length xs.
Proof.
  revert k; induction xs as [|x xs IH]; intros k; simpl; [done | by rewrite IH].
Qed.

Lemma lookup_enumerate_from {A} (k i : nat) (xs : list A) :
  enumerate_from k xs !! i = (λ x, (k + i, x)) <$> xs !! i.
Proof.
  revert k i; induction xs as [|x xs IH]; intros k [|i]; simpl; try done.
  - by rewrite Nat.add_0_r.
  - rewrite IH. destruct (xs !! i); simpl; [|done]. do 2 f_equal. lia.
Qed.

End PyStrFacts.

(** ** The search adapter *)

Module SearchAdapterSpec.
Import PyStr PyStrFacts SearchAdapter.

Lemma triples_eq_triples_from (response : SearchResponse) :
  triples response = triples_from 0 (results response).
Proof. reflexivity. Qed.

Lemma parsedResult_concat (response : SearchResponse) :
  parsedResult response = concat_all (triples response).
Proof. apply join_empty_sep. Qed.

Lemma triples_from_app (k : nat) (xs ys : list Result) :
  triples_from k (xs ++ ys)
  = triples_from k xs ++ triples_from (k + length xs) ys.
Proof.
  unfold triples_from. by rewrite enumerate_from_app, fmap_app.
Qed.

Lemma length_triples_from (k : nat) (hits : list Result) :
  length (triples_from k hits) = length hits.
Proof.
  unfold triples_from. by rewrite length_fmap, length_enumerate_from.
Qed.

Lemma lookup_triples_from (k i : nat) (hits : list Result) (r : Result) :
  hits !! i = Some r → triples_from k hits !! i = Some (triple (k + i) r).
Proof.
  intros Hi. unfold triples_from.
  by rewrite list_lookup_fmap, lookup_enumerate_from, Hi.
Qed.

(** The tags of one triple alone take 61 characters. *)
Lemma length_triple_lower_bound (idx : nat) (r : Result) :
  61 ≤ String.length (triple idx r).
Proof.
  unfold triple, title_segment, url_segment, highlight_segment.
  rewrite !length_append. simpl. lia.
Qed.

(** The tool sends its one request whatever the provider answers. *)
Lemma tool_calls_once (exa : Exa) (question : string) :
  (search_and_get_contents_tool exa question).1 = [request_for question].
Proof.
  unfold search_and_get_contents_tool.
  by destruct (exa (request_for question)).
Qed.

Lemma tool_on_response (exa : Exa) (question : string) (response : SearchResponse) :
  exa (request_for question) = inr response →
  search_and_get_contents_tool exa question
  = ([request_for question], inr (parsedResult response)).
Proof.
  intros Hexa. unfold search_and_get_contents_tool. by rewrite Hexa.
Qed.

(** C1, as the specification states it, fails on the code: for the non-empty
    query [Acme Corp] and a provider that returns a single hit, the tool
    returns the one triple of that hit, which is no blob of three triples. *)
Lemma C1_single_hit_counterexample :
  "Acme Corp" ≠ ""
  ∧ search_and_get_contents_tool exa_one_hit "Acme Corp"
    = ([request_for "Acme Corp"],
       inr "<Title id=0>A</Title><URL id=0>u1</URL><Highlight id=0>h1</Highlight>")
  ∧ length (triples one_hit) = 1
  ∧ ¬ (∃ blob,
         (search_and_get_contents_tool exa_one_hit "Acme Corp").2 = inr blob
         ∧ three_triples blob).
Proof.
  split; [done|]. split; [reflexivity|]. split; [reflexivity|].
  intros (blob & Hblob & r0 & r1 & r2 & Hthree).
  vm_compute in Hblob. injection Hblob as <-.
  apply (f_equal String.length) in Hthree.
  rewrite !length_append in Hthree.
  pose proof (length_triple_lower_bound 0 r0) as H0.
  pose proof (length_triple_lower_bound 1 r1) as H1.
  pose proof (length_triple_lower_bound 2 r2) as H2.
  revert Hthree H0 H1 H2.
  generalize (String.length (triple 0 r0)) (String.length (triple 1 r1))
    (String.length (triple 2 r2)).
  intros n0 n1 n2 Hthree. cbn [String.length] in Hthree. lia.
Qed.

(** The text of a triple, tag by tag, as lines 58-60 write it. *)
Lemma triple_text (idx : nat) (r : Result) :
  triple idx r
  = "<Title id=" +:+ str_of_nat idx +:+ ">" +:+ title r
    +:+ "</Title><URL id=" +:+ str_of_nat idx +:+ ">" +:+ url r
    +:+ "</URL><Highlight id=" +:+ str_of_nat idx +:+ ">"
    +:+ concat_all (highlights r) +:+ "</Highlight>".
Proof.
  unfold triple, title_segment, url_segment, highlight_segment.
  rewrite join_empty_sep, !append_assoc. reflexivity.
Qed.

(** Different indices are written differently. *)
Lemma str_of_nat_inj (i j : nat) : str_of_nat i = str_of_nat j → i = j.
Proof. unfold str_of_nat. apply pretty_nat_inj. Qed.

(** The first indices, as [str(idx)] writes them. *)
Lemma str_of_nat_digits :
  str_of_nat 0 = "0" ∧ str_of_nat 1 = "1" ∧ str_of_nat 2 = "2"
  ∧ str_of_nat 9 = "9" ∧ str_of_nat 10 = "10".
Proof. by repeat split. Qed.

(** C1 (amended): for every non-empty query the tool issues exactly one
    search, of type neural, asking for 3 results with highlights; when the
    provider answers with its hits the returned blob is the concatenation of
    one title/URL/highlight triple per returned hit, in the provider's
    order, the triple of the hit at position [i] carrying the decimal index
    [i] in its three tags (different positions, different indices); so when
    the provider returns three hits the blob is exactly their three triples
    with indices 0, 1 and 2. *)
Theorem C1_one_neural_search_for_three_and_a_triple_per_hit
    (exa : Exa) (question : string) (response : SearchResponse) :
  question ≠ "" →
  exa (request_for question) = inr response →
  search_and_get_contents_tool exa question
  = ([ {| query := question; type := "neural"; num_results := 3;
          want_highlights := true |} ],
     inr (concat_all (triples response)))
  ∧ length (triples response) = length (results response)
  ∧ (∀ i r, results response !! i = Some r →
       triples response !! i
       = Some ("<Title id=" +:+ str_of_nat i +:+ ">" +:+ title r
               +:+ "</Title><URL id=" +:+ str_of_nat i +:+ ">" +:+ url r
               +:+ "</URL><Highlight id=" +:+ str_of_nat i +:+ ">"
               +:+ concat_all (highlights r) +:+ "</Highlight>"))
  ∧ (∀ i j, str_of_nat i = str_of_nat j → i = j)
  ∧ (∀ r0 r1 r2, results response = [r0; r1; r2] →
       (search_and_get_contents_tool exa question).2
       = inr ("<Title id=0>" +:+ title r0
         +:+ "</Title><URL id=0>" +:+ url r0
         +:+ "</URL><Highlight id=0>" +:+ concat_all (highlights r0)
         +:+ "</Highlight>"
         +:+ "<Title id=1>" +:+ title r1
         +:+ "</Title><URL id=1>" +:+ url r1
         +:+ "</URL><Highlight id=1>" +:+ concat_all (highlights r1)
         +:+ "</Highlight>"
         +:+ "<Title id=2>" +:+ title r2
         +:+ "</Title><URL id=2>" +:+ url r2
         +:+ "</URL><Highlight id=2>" +:+ concat_all (highlights r2)
         +:+ "</Highlight>")
       ∧ three_triples (concat_all (triples response))).
Proof.
  intros _ Hexa. split; [|split; [|split; [|split]]].
  - rewrite (tool_on_response _ _ _ Hexa). by rewrite parsedResult_concat.
  - rewrite triples_eq_triples_from. apply length_triples_from.
  - intros i r Hi. rewrite triples_eq_triples_from.
    by rewrite (lookup_triples_from 0 i _ r Hi), triple_text.
  - apply str_of_nat_inj.
  - intros r0 r1 r2 Hthree.
    assert (Hblob : concat_all (triples response)
                    = triple 0 r0 +:+ triple 1 r1 +:+ triple 2 r2).
    { rewrite triples_eq_triples_from, Hthree. simpl.
      by rewrite append_empty_r. }
    split; [|by exists r0, r1, r2].
    rewrite (tool_on_response _ _ _ Hexa), parsedResult_concat, Hblob.
    cbn [snd]. rewrite !triple_text.
    destruct str_of_nat_digits as (-> & -> & -> & _).
    rewrite !append_assoc. reflexivity.
Qed.

Lemma C1_witness :
  search_and_get_contents_tool exa_three_hits "Acme Corp"
  = ([ {| query := "Acme Corp"; type := "neural"; num_results := 3;
          want_highlights := true |} ],
     inr (concat_all (triples three_hits)))
  ∧ (search_and_get_contents_tool exa_three_hits "Acme Corp").2
    = inr "<Title id=0>A</Title><URL id=0>u1</URL><Highlight id=0>h1</Highlight><Title id=1>B</Title><URL id=1>u2</URL><Highlight id=1>h2ah2b</Highlight><Title id=2>C</Title><URL id=2>u3</URL><Highlight id=2></Highlight>"
  ∧ length (triples three_hits) = 3.
Proof.
  pose proof (C1_one_neural_search_for_three_and_a_triple_per_hit
                exa_three_hits "Acme Corp" three_hits
                ltac:(done) eq_refl)
    as (Hcall & Hlen & _ & _ & Hthree).
  split; [exact Hcall|].
  split; [exact (proj1 (Hthree _ _ _ eq_refl)) | exact Hlen].
Defined.

(** C2: when the provider's result list is exactly
    [{title: A, url: u1, highlights: [h1]}], the tool returns the title
    segment, the URL segment and the highlight segment of index 0, one after
    the other with nothing between or around them: character for character
    the string below, whose only blanks are the one inside each opening tag. *)
Theorem C2_single_hit_blob_is_the_three_segments
    (exa : Exa) (question : string) :
  exa (request_for question)
  = inr {| results := [ {| title := "A"; url := "u1"; highlights := ["h1"] |} ] |} →
  (search_and_get_contents_tool exa question).2
  = inr "<Title id=0>A</Title><URL id=0>u1</URL><Highlight id=0>h1</Highlight>"
  ∧ (search_and_get_contents_tool exa question).2
    = inr (title_segment 0 {| title := "A"; url := "u1"; highlights := ["h1"] |}
           +:+ url_segment 0 {| title := "A"; url := "u1"; highlights := ["h1"] |}
           +:+ highlight_segment 0 {| title := "A"; url := "u1"; highlights := ["h1"] |})
  ∧ title_segment 0 {| title := "A"; url := "u1"; highlights := ["h1"] |}
    = "<Title id=0>A</Title>"
  ∧ url_segment 0 {| title := "A"; url := "u1"; highlights := ["h1"] |}
    = "<URL id=0>u1</URL>"
  ∧ highlight_segment 0 {| title := "A"; url := "u1"; highlights := ["h1"] |}
    = "<Highlight id=0>h1</Highlight>".
Proof.
  intros Hexa. rewrite (tool_on_response _ _ _ Hexa). simpl.
  repeat split; reflexivity.
Qed.

Lemma C2_witness :
  (search_and_get_contents_tool exa_one_hit "Acme Corp").2
  = inr "<Title id=0>A</Title><URL id=0>u1</URL><Highlight id=0>h1</Highlight>".
Proof.
  exact (proj1 (C2_single_hit_blob_is_the_three_segments
                  exa_one_hit "Acme Corp" eq_refl)).
Defined.

(** C6: when the provider's call raises, the tool sends its single request
    and the same exception leaves the tool (nothing in its body catches it).
    Whatever the provider answers the tool sends exactly one request (no
    second attempt, no request for a further page), and hits that repeat in
    the response are all serialised, each under its own index. *)
Theorem C6_provider_error_leaves_the_tool
    (exa : Exa) (question : string) (e : ProviderError) :
  exa (request_for question) = inl e →
  search_and_get_contents_tool exa question = ([request_for question], inl e)
  ∧ (∀ exa' question',
       length (search_and_get_contents_tool exa' question').1 = 1)
  ∧ (∀ r, parsedResult {| results := [r; r] |} = triple 0 r +:+ triple 1 r).
Proof.
  intros Hexa. split; [|split].
  - unfold search_and_get_contents_tool. by rewrite Hexa.
  - intros exa' question'. by rewrite tool_calls_once.
  - intros r. rewrite parsedResult_concat. simpl. by rewrite append_empty_r.
Qed.

Lemma C6_witness :
  search_and_get_contents_tool exa_timeout "Acme Corp"
  = ([request_for "Acme Corp"], inl "Request timed out")
  ∧ (∀ exa' question',
       length (search_and_get_contents_tool exa' question').1 = 1)
  ∧ (∀ r, parsedResult {| results := [r; r] |} = triple 0 r +:+ triple 1 r).
Proof.
  apply (C6_provider_error_leaves_the_tool exa_timeout "Acme Corp"
           "Request timed out").
  reflexivity.
Defined.

(** C9: the serialiser maps the concatenation of two result lists to the
    concatenation of their blobs, the second list numbered after the first.
    For [n] results it is the concatenation of exactly [n] triples, the
    [i]-th being the title, URL and highlight segments of the [i]-th result
    with the decimal index [i] in their tags (0, 1, 2, ... written as the
    numerals, different indices differently); no result gives the empty
    string; and the tool returns this blob, with fewer than three triples
    when the provider returns fewer than three results. *)
Theorem C9_serializer_is_a_concatenation_homomorphism (xs ys : list Result) :
  parsedResult {| results := xs ++ ys |}
  = parsedResult {| results := xs |} +:+ concat_all (triples_from (length xs) ys)
  ∧ parsedResult {| results := xs |} = concat_all (triples {| results := xs |})
  ∧ length (triples {| results := xs |}) = length xs
  ∧ (∀ i r, xs !! i = Some r →
       triples {| results := xs |} !! i
       = Some ("<Title id=" +:+ str_of_nat i +:+ ">" +:+ title r
               +:+ "</Title><URL id=" +:+ str_of_nat i +:+ ">" +:+ url r
               +:+ "</URL><Highlight id=" +:+ str_of_nat i +:+ ">"
               +:+ concat_all (highlights r) +:+ "</Highlight>"))
  ∧ (∀ j r, ys !! j = Some r →
       triples_from (length xs) ys !! j
       = Some ("<Title id=" +:+ str_of_nat (length xs + j) +:+ ">" +:+ title r
               +:+ "</Title><URL id=" +:+ str_of_nat (length xs + j) +:+ ">" +:+ url r
               +:+ "</URL><Highlight id=" +:+ str_of_nat (length xs + j) +:+ ">"
               +:+ concat_all (highlights r) +:+ "</Highlight>"))
  ∧ (∀ i j, str_of_nat i = str_of_nat j → i = j)
  ∧ (str_of_nat 0 = "0" ∧ str_of_nat 1 = "1" ∧ str_of_nat 2 = "2"
     ∧ str_of_nat 9 = "9" ∧ str_of_nat 10 = "10")
  ∧ parsedResult {| results := [] |} = ""
  ∧ (∀ exa question,
       exa (request_for question) = inr {| results := xs |} →
       (search_and_get_contents_tool exa question).2
       = inr (parsedResult {| results := xs |}))
  ∧ (length xs < 3 → length (triples {| results := xs |}) < 3).
Proof.
  assert (Hlen : length (triples {| results := xs |}) = length xs).
  { rewrite triples_eq_triples_from. apply length_triples_from. }
  split; [|split; [|split; [|split; [|split; [|split; [|split;
    [|split; [|split]]]]]]]].
  - rewrite !parsedResult_concat, !triples_eq_triples_from. simpl.
    by rewrite triples_from_app, concat_all_app.
  - apply parsedResult_concat.
  - exact Hlen.
  - intros i r Hi. rewrite triples_eq_triples_from. simpl.
    by rewrite (lookup_triples_from 0 i xs r Hi), triple_text.
  - intros j r Hj.
    by rewrite (lookup_triples_from (length xs) j ys r Hj), triple_text.
  - apply str_of_nat_inj.
  - apply str_of_nat_digits.
  - reflexivity.
  - intros exa question Hexa. by rewrite (tool_on_response _ _ _ Hexa).
  - intros Hlt. by rewrite Hlen.
Qed.

Lemma C9_witness :
  parsedResult {| results := take 2 (results three_hits) ++ drop 2 (results three_hits) |}
  = parsedResult {| results := take 2 (results three_hits) |}
    +:+ concat_all (triples_from 2 (drop 2 (results three_hits)))
  ∧ triples_from 2 (drop 2 (results three_hits)) !! 0
    = Some "<Title id=2>C</Title><URL id=2>u3</URL><Highlight id=2></Highlight>"
  ∧ triples {| results := take 2 (results three_hits) |} !! 1
    = Some "<Title id=1>B</Title><URL id=1>u2</URL><Highlight id=1>h2ah2b</Highlight>"
  ∧ length (triples {| results := take 2 (results three_hits) |}) < 3.
Proof.
  pose proof (C9_serializer_is_a_concatenation_homomorphism
                (take 2 (results three_hits)) (drop 2 (results three_hits)))
    as (Happ & _ & _ & Hfirst & Hsecond & _ & _ & _ & _ & Hfew).
  split; [exact Happ|].
  split; [exact (Hsecond 0 _ eq_refl)|].
  split; [exact (Hfirst 1 _ eq_refl)|].
  apply Hfew. simpl. lia.
Defined.

(** ** Further properties of the serialiser *)

Lemma concat_all_join (parts : list string) : join "" parts = concat_all parts.
Proof. apply join_empty_sep. Qed.

(** X12: the fields are written into the blob as they are, without
    escaping: text that closes the title tag and opens the URL tag may sit at
    the end of the title or at the start of the URL of a hit, and the two
    different hits have the same triple. *)
Theorem X12_fields_are_not_escaped
    (idx : nat) (t x u : string) (hs : list string) :
  triple idx {| title := t +:+ "</Title><URL id=" +:+ str_of_nat idx +:+ ">" +:+ x;
                url := u; highlights := hs |}
  = triple idx {| title := t;
                  url := x +:+ "</Title><URL id=" +:+ str_of_nat idx +:+ ">" +:+ u;
                  highlights := hs |}
  ∧ {| title := t +:+ "</Title><URL id=" +:+ str_of_nat idx +:+ ">" +:+ x;
       url := u; highlights := hs |}
    ≠ {| title := t;
         url := x +:+ "</Title><URL id=" +:+ str_of_nat idx +:+ ">" +:+ u;
         highlights := hs |}.
Proof.
  split.
  - unfold triple, title_segment, url_segment. cbn [title url].
    rewrite !append_assoc. reflexivity.
  - intros [= Htitle _]. apply (f_equal String.length) in Htitle.
    rewrite !length_append in Htitle. simpl in Htitle. lia.
Qed.

(** X13: the highlight segment keeps the text of the snippets and loses
    where one ends and the next begins: hits with the same title and URL
    whose snippets concatenate to the same text have the same triple. *)
Theorem X13_snippet_boundaries_are_lost (idx : nat) (r r' : Result) :
  title r = title r' →
  url r = url r' →
  concat_all (highlights r) = concat_all (highlights r') →
  triple idx r = triple idx r'.
Proof.
  intros Htitle Hurl Hsnippets.
  unfold triple, title_segment, url_segment, highlight_segment.
  by rewrite Htitle, Hurl, !concat_all_join, Hsnippets.
Qed.

Lemma X13_witness :
  triple 0 {| title := "A"; url := "u1"; highlights := ["ab"; "c"] |}
  = triple 0 {| title := "A"; url := "u1"; highlights := ["a"; "bc"] |}.
Proof.
  apply (X13_snippet_boundaries_are_lost 0
           {| title := "A"; url := "u1"; highlights := ["ab"; "c"] |}
           {| title := "A"; url := "u1"; highlights := ["a"; "bc"] |});
    reflexivity.
Defined.

(** X14: the blob is the empty string exactly when the provider returned
    no hit; [n] hits give a blob of at least [61 * n] characters. *)
Theorem X14_blob_is_empty_only_without_hits (response : SearchResponse) :
  (parsedResult response = "" ↔ results response = [])
  ∧ 61 * length (results response) ≤ String.length (parsedResult response).
Proof.
  assert (Hlen : ∀ k hits,
            61 * length hits ≤ String.length (concat_all (triples_from k hits))).
  { intros k hits. revert k. induction hits as [|r hits IH]; intros k.
    - simpl. lia.
    - unfold triples_from. cbn [enumerate_from fmap list_fmap concat_all].
      rewrite length_append.
      pose proof (length_triple_lower_bound k r).
      pose proof (IH (S k)) as IH'. unfold triples_from in IH'.
      cbn [length]. lia. }
  rewrite parsedResult_concat, triples_eq_triples_from.
  split; [|apply Hlen]. split.
  - intros Hempty. specialize (Hlen 0 (results response)).
    rewrite Hempty in Hlen. simpl in Hlen.
    destruct (results response); [done | simpl in Hlen; lia].
  - by intros ->.
Qed.

End SearchAdapterSpec.

(** ** The flow controller *)

Module FlowControllerSpec.
Import PyStr PyStrFacts FlowController.

Section WithRuntime.
Context `{RT : Runtime}.

(** *** The monad's equations *)

Lemma run_bind {A B} (m : Script A) (k : A → Script B) (s : SessionState) :
  (m ≫= k) s
  = match m s with
    | (Return a, s1, out1) =>
        let '(r, s2, out2) := k a s1 in (r, s2, out1 ++ out2)
    | (Raise r, s1, out1) => (Raise r, s1, out1)
    end.
Proof. reflexivity. Qed.

(** Unfolds the monad's operations in the goal down to state passing. *)
Ltac script_unfold :=
  unfold mbind, mret, script_bind, script_ret, bind, ret, emit, get_state,
    set_results, set_is_running, st_rerun, st_stop, raise;
  cbn [results is_running company_name find_clicked clear_clicked].

(** *** The blocks of the script, one equation each *)

Lemma page_header_run (s : SessionState) :
  page_header s = (Return tt, s, [st_title; st_static Tagline]).
Proof. reflexivity. Qed.

Lemma secrets_of_store (w : World) (store : gmap string string) :
  secrets_store w = inr store → secrets w = store.
Proof. intros Hstore. unfold secrets. by rewrite Hstore. Qed.

(** A key that is bound is bound by a store. *)
Lemma store_of_secret (w : World) (key v : string) :
  secrets w !! key = Some v →
  ∃ store, secrets_store w = inr store ∧ store !! key = Some v.
Proof.
  unfold secrets. destruct (secrets_store w) as [message|store]; [done|].
  intros Hkey. by exists store.
Qed.

Lemma api_key_setup_no_store (w : World) (s : SessionState) (message : string) :
  secrets_store w = inl message →
  api_key_setup w s
  = (Raise (Exc (StreamlitSecretNotFoundError message)), s, []).
Proof.
  intros Hstore.
  unfold api_key_setup, try_except_KeyError, secret.
  rewrite run_bind, Hstore. reflexivity.
Qed.

Lemma api_key_setup_present (w : World) (s : SessionState)
    (store : gmap string string) (k1 k2 : string) :
  secrets_store w = inr store →
  store !! "OPENAI_API_KEY" = Some k1 →
  store !! "EXA_API_KEY" = Some k2 →
  api_key_setup w s
  = (Return (k1, k2), s,
     [os_environ_set "OPENAI_API_KEY" k1; os_environ_set "EXA_API_KEY" k2]).
Proof.
  intros Hstore H1 H2.
  unfold api_key_setup, try_except_KeyError, secret.
  rewrite run_bind, Hstore, H1. simpl. rewrite run_bind, H2. reflexivity.
Qed.

Lemma api_key_setup_no_openai (w : World) (s : SessionState)
    (store : gmap string string) :
  secrets_store w = inr store →
  store !! "OPENAI_API_KEY" = None →
  api_key_setup w s
  = (Raise StopException, s,
     [ st_error ("Missing API key in secrets: " +:+ key_error_text "OPENAI_API_KEY");
       st_info "Please add your API keys to Streamlit secrets:";
       st_code secrets_toml_template ]).
Proof.
  intros Hstore H1.
  unfold api_key_setup, try_except_KeyError, secret.
  rewrite run_bind, Hstore, H1. reflexivity.
Qed.

Lemma api_key_setup_no_exa (w : World) (s : SessionState)
    (store : gmap string string) (k1 : string) :
  secrets_store w = inr store →
  store !! "OPENAI_API_KEY" = Some k1 →
  store !! "EXA_API_KEY" = None →
  api_key_setup w s
  = (Raise StopException, s,
     [ st_error ("Missing API key in secrets: " +:+ key_error_text "EXA_API_KEY");
       st_info "Please add your API keys to Streamlit secrets:";
       st_code secrets_toml_template ]).
Proof.
  intros Hstore H1 H2.
  unfold api_key_setup, try_except_KeyError, secret.
  rewrite run_bind, Hstore, H1. simpl. rewrite run_bind, H2. reflexivity.
Qed.

Lemma column1_run (inp : Inputs) (s : SessionState) :
  column1 inp s
  = if results_truthy s && clear_clicked inp
    then (Raise RerunException,
          {| results := None; is_running := is_running s |},
          column1_elements inp s)
    else (Return (find_clicked inp && negb (find_disabled inp s)), s,
          column1_elements inp s).
Proof.
  destruct s as [res running], inp as [company find clear].
  unfold column1, column1_elements, find_disabled, results_truthy, button.
  script_unfold.
  destruct res as [r|]; [destruct (bool_of r)|];
    destruct running, clear; reflexivity.
Qed.

Lemma column2_run (s : SessionState) :
  column2 s = (Return tt, s, column2_elements).
Proof. reflexivity. Qed.

Lemma on_submit_run (inp : Inputs) (search_button : bool) (s : SessionState) :
  on_submit inp search_button s
  = if search_button && truthy (company_name inp)
    then (Raise RerunException,
          {| results := results s; is_running := true |}, [])
    else (Return tt, s, []).
Proof.
  unfold on_submit.
  by destruct (search_button && truthy (company_name inp)).
Qed.

Lemma while_running_run (w : World) (inp : Inputs) (s : SessionState) :
  while_running w inp s
  = if is_running s
    then match crew_call w (company_name inp) with
         | inr result =>
             (Raise RerunException,
              {| results := Some result; is_running := false |},
              crew_events w inp)
         | inl e =>
             (Raise RerunException,
              {| results := results s; is_running := false |},
              crew_events w inp
              ++ [st_error ("An error occurred: " +:+ str_of_exception e)])
         end
    else (Return tt, s, []).
Proof.
  destruct s as [res running].
  unfold while_running, crew_call, crew_events, setup_crew, kickoff,
    try_except_Exception.
  script_unfold.
  destruct running; [|reflexivity].
  destruct (crew_setup w) as [e|crew]; [reflexivity|].
  destruct (crew (company_name inp)) as [e|result]; reflexivity.
Qed.

Lemma display_results_run (inp : Inputs) (s : SessionState) :
  display_results inp s = (Return tt, s, display_elements inp s).
Proof.
  destruct s as [res running].
  unfold display_results, display_elements.
  script_unfold.
  destruct res as [r|]; [destruct (bool_of r)|]; reflexivity.
Qed.

Lemma sidebar_run (s : SessionState) :
  sidebar s = (Return tt, s, sidebar_elements).
Proof. reflexivity. Qed.

(** The part of the script below the key setup is its decision table. *)
Lemma main_interface_run (w : World) (inp : Inputs) (s : SessionState) :
  main_interface w inp s = main_interface_cases w inp s.
Proof.
  unfold main_interface, main_interface_cases.
  rewrite run_bind, column1_run.
  destruct (results_truthy s && clear_clicked inp); [reflexivity|].
  rewrite run_bind, column2_run. cbn beta iota zeta.
  rewrite run_bind, on_submit_run.
  destruct (find_clicked inp && negb (find_disabled inp s)
            && truthy (company_name inp)).
  { by rewrite app_nil_r. }
  cbn beta iota zeta.
  rewrite run_bind, while_running_run.
  destruct (is_running s).
  { destruct (crew_call w (company_name inp)); reflexivity. }
  cbn beta iota zeta.
  rewrite run_bind, display_results_run. cbn beta iota zeta.
  rewrite sidebar_run. reflexivity.
Qed.

(** One execution of the script is its decision table. *)
Lemma script_run (w : World) (inp : Inputs) (s : SessionState) :
  script w inp s = script_cases w inp s.
Proof.
  unfold script, script_cases.
  rewrite run_bind, page_header_run. cbn beta iota zeta.
  rewrite run_bind.
  destruct (secrets_store w) as [message|store] eqn:Hstore.
  { by rewrite (api_key_setup_no_store w s message Hstore). }
  destruct (store !! "OPENAI_API_KEY") as [k1|] eqn:H1.
  - destruct (store !! "EXA_API_KEY") as [k2|] eqn:H2.
    + rewrite (api_key_setup_present w s store k1 k2 Hstore H1 H2).
      rewrite main_interface_run.
      by destruct (main_interface_cases w inp s) as [[r s'] out].
    + by rewrite (api_key_setup_no_exa w s store k1 Hstore H1 H2).
  - by rewrite (api_key_setup_no_openai w s store Hstore H1).
Qed.

(** The decision table read by the keys: a missing key stops the script
    when there is a store, and the access itself raises when there is none. *)
Lemma script_cases_by_keys (w : World) (inp : Inputs) (s : SessionState) :
  script_cases w inp s
  = match secrets w !! "OPENAI_API_KEY", secrets w !! "EXA_API_KEY" with
    | Some k1, Some k2 =>
        ((main_interface_cases w inp s).1.1, (main_interface_cases w inp s).1.2,
         setup_elements k1 k2 ++ (main_interface_cases w inp s).2)
    | None, _ =>
        match secrets_store w with
        | inl message =>
            (Raise (Exc (StreamlitSecretNotFoundError message)), s,
             [st_title; st_static Tagline])
        | inr _ =>
            (Raise StopException, s, missing_key_elements "OPENAI_API_KEY")
        end
    | Some _, None =>
        (Raise StopException, s, missing_key_elements "EXA_API_KEY")
    end.
Proof.
  unfold script_cases, secrets.
  destruct (secrets_store w) as [message|store]; [by rewrite !lookup_empty|].
  destruct (store !! "OPENAI_API_KEY"), (store !! "EXA_API_KEY"); try done.
  by destruct (main_interface_cases w inp s) as [[r s'] out].
Qed.

(** A run without both keys ends there, with no call to the crew. *)
Lemma script_without_keys (w : World) (inp : Inputs) (s : SessionState) :
  secrets w !! "OPENAI_API_KEY" = None ∨ secrets w !! "EXA_API_KEY" = None →
  ∃ r out,
    script w inp s = (Raise r, s, out)
    ∧ r ≠ RerunException
    ∧ Forall (λ el, is_widget el = false ∧ is_kickoff el = false) out
    ∧ kickoffs out = 0.
Proof.
  intros Hmissing. rewrite script_run, script_cases_by_keys.
  destruct (secrets w !! "OPENAI_API_KEY") as [k1|].
  - destruct Hmissing as [?|H2]; [done|]. rewrite H2.
    eexists _, _. split; [done|]. split; [done|].
    split; [repeat constructor | reflexivity].
  - destruct (secrets_store w); eexists _, _;
      (split; [done|]); (split; [done|]);
      (split; [repeat constructor | reflexivity]).
Qed.


(** *** Counting the calls to [kickoff] *)

Lemma kickoffs_app (a b : list Element) :
  kickoffs (a ++ b) = kickoffs a + kickoffs b.
Proof.
  induction a as [|e a IH]; simpl; [done|]. rewrite IH. lia.
Qed.

Lemma kickoffs_column1 (inp : Inputs) (s : SessionState) :
  kickoffs (column1_elements inp s) = 0.
Proof.
  unfold column1_elements.
  by destruct (is_running s), (results_truthy s).
Qed.

Lemma kickoffs_display (inp : Inputs) (s : SessionState) :
  kickoffs (display_elements inp s) = 0.
Proof.
  unfold display_elements.
  destruct (results s) as [r|]; [destruct (bool_of r)|]; reflexivity.
Qed.

Lemma kickoffs_crew_events (w : World) (inp : Inputs) :
  kickoffs (crew_events w inp) ≤ 1.
Proof.
  unfold crew_events. destruct (crew_setup w); simpl; lia.
Qed.

Lemma kickoffs_column2 : kickoffs column2_elements = 0.
Proof. reflexivity. Qed.

Lemma kickoffs_sidebar : kickoffs sidebar_elements = 0.
Proof. reflexivity. Qed.

Lemma kickoffs_main_interface (w : World) (inp : Inputs) (s : SessionState) :
  kickoffs (main_interface_cases w inp s).2 ≤ 1.
Proof.
  pose proof (kickoffs_crew_events w inp) as Hcrew.
  unfold main_interface_cases.
  destruct (results_truthy s && clear_clicked inp);
    [cbn [snd]; rewrite kickoffs_column1; lia|].
  destruct (find_clicked inp && negb (find_disabled inp s)
            && truthy (company_name inp));
    [cbn [snd]; rewrite kickoffs_app, kickoffs_column1, kickoffs_column2; lia|].
  destruct (is_running s).
  - destruct (crew_call w (company_name inp)); cbn [snd];
      rewrite !kickoffs_app, kickoffs_column1, kickoffs_column2;
      cbn [kickoffs is_kickoff]; lia.
  - cbn [snd].
    rewrite !kickoffs_app, kickoffs_column1, kickoffs_column2,
      kickoffs_display, kickoffs_sidebar.
    lia.
Qed.

(** A single execution of the script calls [kickoff] at most once. *)
Lemma kickoffs_script (w : World) (inp : Inputs) (s : SessionState) :
  kickoffs (script w inp s).2 ≤ 1.
Proof.
  rewrite script_run, script_cases_by_keys.
  pose proof (kickoffs_main_interface w inp s) as Hmain.
  destruct (secrets w !! "OPENAI_API_KEY");
    [|destruct (secrets_store w); simpl; lia].
  destruct (secrets w !! "EXA_API_KEY"); [|simpl; lia].
  cbn [snd]. rewrite kickoffs_app. simpl. lia.
Qed.

(** *** Following the reruns *)

(** With no key missing, a run is the decision table after the setup. *)
Lemma script_with_keys (w : World) (inp : Inputs) (s : SessionState)
    (k1 k2 : string) :
  secrets w !! "OPENAI_API_KEY" = Some k1 →
  secrets w !! "EXA_API_KEY" = Some k2 →
  script w inp s
  = ((main_interface_cases w inp s).1.1, (main_interface_cases w inp s).1.2,
     setup_elements k1 k2 ++ (main_interface_cases w inp s).2).
Proof.
  intros H1 H2. by rewrite script_run, script_cases_by_keys, H1, H2.
Qed.

(** A store that lacks a key stops the script at the first key it lacks. *)
Lemma script_missing_key (w : World) (inp : Inputs) (s : SessionState)
    (store : gmap string string) :
  secrets_store w = inr store →
  store !! "OPENAI_API_KEY" = None ∨ store !! "EXA_API_KEY" = None →
  ∃ key, (key = "OPENAI_API_KEY" ∨ key = "EXA_API_KEY")
    ∧ store !! key = None
    ∧ (store !! "OPENAI_API_KEY" = None → key = "OPENAI_API_KEY")
    ∧ script w inp s = (Raise StopException, s, missing_key_elements key).
Proof.
  intros Hstore Hmissing. rewrite script_run. unfold script_cases.
  rewrite Hstore.
  destruct (store !! "OPENAI_API_KEY") as [k1|] eqn:H1.
  - destruct Hmissing as [?|H2]; [done|]. rewrite H2.
    exists "EXA_API_KEY". split; [by right|]. by repeat split.
  - exists "OPENAI_API_KEY". split; [by left|]. by repeat split.
Qed.

(** *** The four transitions of the controller *)

(** Clear Results clicked while results are shown. *)
Lemma script_clear (w : World) (inp : Inputs) (s : SessionState) (k1 k2 : string) :
  secrets w !! "OPENAI_API_KEY" = Some k1 →
  secrets w !! "EXA_API_KEY" = Some k2 →
  results_truthy s && clear_clicked inp = true →
  script w inp s
  = (Raise RerunException,
     {| results := None; is_running := is_running s |},
     setup_elements k1 k2 ++ column1_elements inp s).
Proof.
  intros H1 H2 Hclear. rewrite (script_with_keys w inp s k1 k2 H1 H2).
  unfold main_interface_cases. by rewrite Hclear.
Qed.

(** A valid submit: Find Prospects clicked on a non-empty company name
    while no search is running. *)
Lemma script_submit (w : World) (inp : Inputs) (s : SessionState) (k1 k2 : string) :
  secrets w !! "OPENAI_API_KEY" = Some k1 →
  secrets w !! "EXA_API_KEY" = Some k2 →
  results_truthy s && clear_clicked inp = false →
  find_clicked inp = true →
  truthy (company_name inp) = true →
  is_running s = false →
  script w inp s
  = (Raise RerunException,
     {| results := results s; is_running := true |},
     setup_elements k1 k2 ++ column1_elements inp s ++ column2_elements).
Proof.
  intros H1 H2 Hclear Hfind Hname Hidle.
  rewrite (script_with_keys w inp s k1 k2 H1 H2).
  unfold main_interface_cases, find_disabled.
  by rewrite Hclear, Hfind, Hname, Hidle.
Qed.

(** A run that finds the flag set calls the crew, stores its output or
    reports its exception, and clears the flag. *)
Lemma script_running (w : World) (inp : Inputs) (s : SessionState) (k1 k2 : string) :
  secrets w !! "OPENAI_API_KEY" = Some k1 →
  secrets w !! "EXA_API_KEY" = Some k2 →
  results_truthy s && clear_clicked inp = false →
  is_running s = true →
  script w inp s
  = (Raise RerunException,
     {| results := match crew_call w (company_name inp) with
                   | inr result => Some result
                   | inl _ => results s
                   end;
        is_running := false |},
     setup_elements k1 k2 ++ column1_elements inp s ++ column2_elements
     ++ crew_events w inp
     ++ match crew_call w (company_name inp) with
        | inr _ => []
        | inl e => [st_error ("An error occurred: " +:+ str_of_exception e)]
        end).
Proof.
  intros H1 H2 Hclear Hrun.
  rewrite (script_with_keys w inp s k1 k2 H1 H2).
  unfold main_interface_cases, find_disabled.
  rewrite Hclear, Hrun, orb_true_r, andb_false_r. cbn [negb andb].
  destruct (crew_call w (company_name inp)); cbn [fst snd]; [done|].
  by rewrite app_nil_r.
Qed.

(** No valid click and no search running: the page is rendered and the
    run returns, the session state as it was. *)
Lemma script_quiet (w : World) (inp : Inputs) (s : SessionState) (k1 k2 : string) :
  secrets w !! "OPENAI_API_KEY" = Some k1 →
  secrets w !! "EXA_API_KEY" = Some k2 →
  results_truthy s && clear_clicked inp = false →
  find_clicked inp && truthy (company_name inp) = false →
  is_running s = false →
  script w inp s
  = (Return tt, s,
     setup_elements k1 k2 ++ column1_elements inp s ++ column2_elements
     ++ display_elements inp s ++ sidebar_elements).
Proof.
  intros H1 H2 Hclear Hfind Hidle.
  rewrite (script_with_keys w inp s k1 k2 H1 H2).
  unfold main_interface_cases, find_disabled.
  rewrite Hclear, Hidle, orb_false_r.
  destruct (find_clicked inp), (truthy (company_name inp)); done.
Qed.

(** *** Following the reruns *)

Lemma interact_rerun (n : nat) (w : World) (inp : Inputs)
    (s s1 : SessionState) (out1 : list Element) :
  script w inp s = (Raise RerunException, s1, out1) →
  interact (S n) w inp s
  = ((interact n w (after_rerun inp) s1).1.1,
     (interact n w (after_rerun inp) s1).1.2,
     out1 ++ (interact n w (after_rerun inp) s1).2).
Proof.
  intros Hrun. cbn [interact]. rewrite Hrun.
  by destruct (interact n w (after_rerun inp) s1) as [[r s2] out2].
Qed.

Lemma interact_settle (n : nat) (w : World) (inp : Inputs)
    (s s1 : SessionState) (r : Outcome unit) (out1 : list Element) :
  script w inp s = (r, s1, out1) →
  r ≠ Raise RerunException →
  interact (S n) w inp s = (Some r, s1, out1).
Proof.
  intros Hrun Hr. cbn [interact]. rewrite Hrun.
  by destruct r as [a|[| |e]].
Qed.

(** Without both keys every interaction ends at its first run, with no
    call to the crew. *)
Lemma interact_without_keys (n : nat) (w : World) (inp : Inputs) (s : SessionState) :
  secrets w !! "OPENAI_API_KEY" = None ∨ secrets w !! "EXA_API_KEY" = None →
  ∃ r out,
    interact (S n) w inp s = (Some (Raise r), s, out) ∧ kickoffs out = 0.
Proof.
  intros Hmissing.
  destruct (script_without_keys w inp s Hmissing)
    as (r & out & Hrun & Hr & _ & Hk).
  exists r, out. split; [|done].
  apply interact_settle; [done|]. by intros [= ->].
Qed.

(** With nothing clicked and no search running, the first run ends the
    interaction without a call to [kickoff]. *)
Lemma interact_quiet (n : nat) (w : World) (company : string) (s : SessionState) :
  is_running s = false →
  ∃ r out,
    interact (S n) w (mkInputs company false false) s = (Some r, s, out)
    ∧ kickoffs out = 0.
Proof.
  intros Hidle.
  destruct (secrets w !! "OPENAI_API_KEY") as [k1|] eqn:H1; cycle 1.
  { destruct (interact_without_keys n w (mkInputs company false false) s)
      as (r & out & -> & Hk); [by left|].
    by eexists _, _. }
  destruct (secrets w !! "EXA_API_KEY") as [k2|] eqn:H2; cycle 1.
  { destruct (interact_without_keys n w (mkInputs company false false) s)
      as (r & out & -> & Hk); [by right|].
    by eexists _, _. }
  eexists _, _. split.
  - eapply interact_settle.
    + apply (script_quiet w _ s k1 k2 H1 H2); [apply andb_false_r|done|done].
    + done.
  - by rewrite !kickoffs_app, kickoffs_column1, kickoffs_display.
Qed.

(** With nothing clicked, at most one run precedes the quiet one. *)
Lemma interact_no_click (w : World) (company : string) (s : SessionState) :
  ∃ r s' out,
    interact 2 w (mkInputs company false false) s = (Some r, s', out)
    ∧ kickoffs out ≤ 1.
Proof.
  destruct (is_running s) eqn:Hrun; cycle 1.
  { destruct (interact_quiet 1 w company s Hrun) as (r & out & -> & Hk).
    exists r, s, out. split; [done|lia]. }
  destruct (secrets w !! "OPENAI_API_KEY") as [k1|] eqn:H1; cycle 1.
  { destruct (interact_without_keys 1 w (mkInputs company false false) s)
      as (r & out & -> & Hk); [by left|].
    eexists _, _, _. split; [done|]. lia. }
  destruct (secrets w !! "EXA_API_KEY") as [k2|] eqn:H2; cycle 1.
  { destruct (interact_without_keys 1 w (mkInputs company false false) s)
      as (r & out & -> & Hk); [by right|].
    eexists _, _, _. split; [done|]. lia. }
  pose proof (kickoffs_script w (mkInputs company false false) s) as Hone.
  pose proof (script_running w (mkInputs company false false) s k1 k2 H1 H2
                (andb_false_r _) Hrun) as Hscript.
  rewrite Hscript in Hone. cbn [snd] in Hone.
  rewrite (interact_rerun 1 _ _ _ _ _ Hscript).
  match goal with
  | |- context [interact 1 w ?i ?s1] =>
      destruct (interact_quiet 0 w company s1 eq_refl) as (r & out & Hq & Hk);
      change (interact 1 w i s1) with (interact 1 w (mkInputs company false false) s1);
      rewrite Hq
  end.
  cbn [fst snd].
  eexists _, _, _. split; [done|].
  rewrite kickoffs_app, Hk. lia.
Qed.

(** Every interaction ends within three runs, with at most one call to
    [kickoff]. *)
Lemma interact_settles (w : World) (inp : Inputs) (s : SessionState) :
  ∃ r s' out,
    interact 3 w inp s = (Some r, s', out) ∧ kickoffs out ≤ 1.
Proof.
  destruct (secrets w !! "OPENAI_API_KEY") as [k1|] eqn:H1; cycle 1.
  { destruct (interact_without_keys 2 w inp s) as (r & out & -> & Hk);
      [by left|].
    eexists _, _, _. split; [done|]. lia. }
  destruct (secrets w !! "EXA_API_KEY") as [k2|] eqn:H2; cycle 1.
  { destruct (interact_without_keys 2 w inp s) as (r & out & -> & Hk);
      [by right|].
    eexists _, _, _. split; [done|]. lia. }
  destruct inp as [company find clear].
  destruct (results_truthy s && clear) eqn:Hclear.
  { rewrite (interact_rerun 2 _ _ _ _ _
               (script_clear w (mkInputs company find clear) s k1 k2 H1 H2 Hclear)).
    unfold after_rerun. cbn [company_name].
    destruct (interact_no_click w company
                {| results := None; is_running := is_running s |})
      as (r & s' & out & -> & Hk).
    cbn [fst snd]. eexists _, _, _. split; [done|].
    rewrite !kickoffs_app, kickoffs_column1. simpl. lia. }
  destruct (is_running s) eqn:Hrun.
  { pose proof (kickoffs_script w (mkInputs company find clear) s) as Hone.
    pose proof (script_running w (mkInputs company find clear) s k1 k2 H1 H2
                  Hclear Hrun) as Hscript.
    rewrite Hscript in Hone. cbn [snd] in Hone.
    rewrite (interact_rerun 2 _ _ _ _ _ Hscript).
    unfold after_rerun. cbn [company_name] in *.
    match goal with
    | |- context [interact 2 w _ ?s1] =>
        destruct (interact_quiet 1 w company s1 eq_refl) as (r & out & -> & Hk)
    end.
    cbn [fst snd]. eexists _, _, _. split; [done|].
    rewrite kickoffs_app, Hk. lia. }
  destruct (find && truthy company) eqn:Hfind.
  { apply andb_true_iff in Hfind as [-> Hname].
    rewrite (interact_rerun 2 _ _ _ _ _
               (script_submit w (mkInputs company true clear) s k1 k2 H1 H2
                  Hclear eq_refl Hname Hrun)).
    unfold after_rerun. cbn [company_name].
    destruct (interact_no_click w company
                {| results := results s; is_running := true |})
      as (r & s' & out & -> & Hk).
    cbn [fst snd]. eexists _, _, _. split; [done|].
    rewrite !kickoffs_app, kickoffs_column1, kickoffs_column2. simpl. lia. }
  rewrite (interact_settle 2 _ _ _ _ _ _
             (script_quiet w (mkInputs company find clear) s k1 k2 H1 H2
                Hclear Hfind Hrun)); [|done].
  eexists _, _, _. split; [done|].
  rewrite !kickoffs_app, kickoffs_column1, kickoffs_column2, kickoffs_display,
    kickoffs_sidebar.
  simpl. lia.
Qed.

Lemma kickoffs_setup (k1 k2 : string) : kickoffs (setup_elements k1 k2) = 0.
Proof. reflexivity. Qed.

(** Splits a count of [kickoff] calls along the blocks of the script. *)
Ltac count_kickoffs :=
  cbn [fst snd];
  rewrite ?kickoffs_app, ?kickoffs_setup, ?kickoffs_column1, ?kickoffs_column2,
    ?kickoffs_display, ?kickoffs_sidebar;
  cbn [kickoffs is_kickoff].

Lemma kickoff_companies_app (a b : list Element) :
  kickoff_companies (a ++ b) = kickoff_companies a ++ kickoff_companies b.
Proof.
  induction a as [|e a IH]; [done|].
  destruct e; simpl; by rewrite ?IH.
Qed.

Lemma kickoff_companies_column1 (inp : Inputs) (s : SessionState) :
  kickoff_companies (column1_elements inp s) = [].
Proof.
  unfold column1_elements.
  by destruct (is_running s), (results_truthy s).
Qed.

Lemma downloads_app (a b : list Element) :
  downloads (a ++ b) = downloads a ++ downloads b.
Proof.
  induction a as [|e a IH]; [done|].
  destruct e; simpl; by rewrite ?IH.
Qed.

Lemma downloads_column1 (inp : Inputs) (s : SessionState) :
  downloads (column1_elements inp s) = [].
Proof.
  unfold column1_elements.
  by destruct (is_running s), (results_truthy s).
Qed.

(** *** The claims about the flow controller *)

(** C3: when the crew's call raises during a run (the flag is set and the
    run reaches the call), the run reports the error, clears the flag and
    leaves [results] exactly as it found it; the session is no longer
    running, no second call is made, and the interaction ends in that same
    state. *)
Theorem C3_failure_clears_the_flag_and_keeps_results
    (w : World) (inp : Inputs) (s : SessionState) (k1 k2 : string)
    (e : Exception) :
  secrets w !! "OPENAI_API_KEY" = Some k1 →
  secrets w !! "EXA_API_KEY" = Some k2 →
  is_running s = true →
  results_truthy s && clear_clicked inp = false →
  crew_call w (company_name inp) = inl e →
  ∃ out out',
    script w inp s
    = (Raise RerunException, {| results := results s; is_running := false |}, out)
    ∧ st_error ("An error occurred: " +:+ str_of_exception e) ∈ out
    ∧ running s = true
    ∧ idle {| results := results s; is_running := false |} = true
    ∧ interact 3 w inp s
      = (Some (Return tt), {| results := results s; is_running := false |},
         out ++ out')
    ∧ kickoffs (out ++ out') ≤ 1.
Proof.
  intros H1 H2 Hrun Hclear Hcall.
  pose proof (script_running w inp s k1 k2 H1 H2 Hclear Hrun) as Hscript.
  rewrite Hcall in Hscript.
  pose proof (script_quiet w (after_rerun inp)
                {| results := results s; is_running := false |} k1 k2 H1 H2
                (andb_false_r _) eq_refl eq_refl) as Hnext.
  pose proof (kickoffs_crew_events w inp) as Hcrew.
  eexists _, _. split; [exact Hscript|].
  split; [set_solver|]. split; [exact Hrun|]. split; [reflexivity|]. split.
  - rewrite (interact_rerun 2 _ _ _ _ _ Hscript).
    by rewrite (interact_settle 1 _ _ _ _ _ _ Hnext).
  - count_kickoffs. lia.
Qed.

(** C8: clicking Clear Results while results are displayed sets [results]
    to [None] and reruns; the flag stays unset, so the session is idle with
    nothing to display, and the following run, which ends the interaction,
    renders the page without the results and calls nothing. *)
Theorem C8_clear_leaves_displaying_for_idle
    (w : World) (inp : Inputs) (s : SessionState) (k1 k2 : string) :
  secrets w !! "OPENAI_API_KEY" = Some k1 →
  secrets w !! "EXA_API_KEY" = Some k2 →
  displaying s = true →
  clear_clicked inp = true →
  ∃ out,
    script w inp s
    = (Raise RerunException, {| results := None; is_running := false |}, out)
    ∧ idle {| results := None; is_running := false |} = true
    ∧ displaying {| results := None; is_running := false |} = false
    ∧ interact 3 w inp s
      = (Some (Return tt), {| results := None; is_running := false |},
         out ++ setup_elements k1 k2
         ++ [ st_subheader "Company Search";
              st_text_input "Enter Company Name:";
              st_button FindProspects (negb (truthy (company_name inp))) ]
         ++ column2_elements ++ sidebar_elements)
    ∧ kickoffs out = 0.
Proof.
  intros H1 H2 Hdisp Hclick. unfold displaying in Hdisp.
  apply andb_true_iff in Hdisp as [Hidle Htruthy].
  apply negb_true_iff in Hidle.
  assert (Hclear : results_truthy s && clear_clicked inp = true)
    by (by rewrite Htruthy, Hclick).
  pose proof (script_clear w inp s k1 k2 H1 H2 Hclear) as Hscript.
  rewrite Hidle in Hscript.
  pose proof (script_quiet w (after_rerun inp)
                {| results := None; is_running := false |} k1 k2 H1 H2
                eq_refl eq_refl eq_refl) as Hnext.
  eexists. split; [exact Hscript|]. split; [done|]. split; [done|]. split.
  - rewrite (interact_rerun 2 _ _ _ _ _ Hscript).
    rewrite (interact_settle 1 _ _ _ _ _ _ Hnext) by done.
    cbn [fst snd]. unfold column1_elements, find_disabled, display_elements.
    cbn. by rewrite orb_false_r.
  - by count_kickoffs.
Qed.

(** C7, the code where the claim fails: with no secrets file both
    credentials are absent, and the first access to the store raises an
    exception that is no [KeyError]. The handler of lines 33-41 does not
    run: the script renders neither the error, nor the instruction, nor the
    template, it does not call [st.stop()], and the exception leaves the
    script uncaught after the title and the tagline. *)
Theorem C7_without_a_secrets_file_the_handler_does_not_run
    (w : World) (inp : Inputs) (raw : RawSession) (message : string) :
  secrets_store w = inl message →
  secrets w !! "OPENAI_API_KEY" = None
  ∧ secrets w !! "EXA_API_KEY" = None
  ∧ run w inp raw
    = (Raise (Exc (StreamlitSecretNotFoundError message)),
       initialize_session_state raw,
       [st_title; st_static Tagline])
  ∧ (run w inp raw).1.1 ≠ Raise StopException
  ∧ errors (run w inp raw).2 = []
  ∧ api_key_setup w (initialize_session_state raw)
    = (Raise (Exc (StreamlitSecretNotFoundError message)),
       initialize_session_state raw, []).
Proof.
  intros Hstore. unfold run, secrets.
  rewrite script_run. unfold script_cases. rewrite Hstore.
  rewrite !lookup_empty, (api_key_setup_no_store _ _ _ Hstore).
  by repeat split.
Qed.

(** X16: when the secrets file exists and lacks either key, every execution
    of the script renders the title, the error naming the first key that is
    missing (the LLM provider's is looked up first), the instruction to add
    the keys and the template of the secrets file, and stops there: no input
    field, no button and no download is rendered, the crew is not called,
    and the interaction ends stopped. *)
Theorem X16_missing_key_in_the_store_stops_the_script
    (w : World) (inp : Inputs) (raw : RawSession) (store : gmap string string) :
  secrets_store w = inr store →
  store !! "OPENAI_API_KEY" = None ∨ store !! "EXA_API_KEY" = None →
  ∃ key,
    (key = "OPENAI_API_KEY" ∨ key = "EXA_API_KEY")
    ∧ store !! key = None
    ∧ (store !! "OPENAI_API_KEY" = None → key = "OPENAI_API_KEY")
    ∧ run w inp raw
      = (Raise StopException, initialize_session_state raw,
         [ st_title; st_static Tagline;
           st_error ("Missing API key in secrets: " +:+ key_error_text key);
           st_info "Please add your API keys to Streamlit secrets:";
           st_code
             (String "010" "    # .streamlit/secrets.toml"
              +:+ String "010" "    OPENAI_API_KEY = "
              +:+ String "034" "your-openai-api-key"
              +:+ String "034" (String "010" "    EXA_API_KEY = ")
              +:+ String "034" "your-exa-api-key"
              +:+ String "034" (String "010" "    ")) ])
    ∧ Forall (λ el, is_widget el = false ∧ is_kickoff el = false)
        (run w inp raw).2
    ∧ interact 3 w inp (initialize_session_state raw)
      = (Some (Raise StopException), initialize_session_state raw,
         (run w inp raw).2).
Proof.
  intros Hstore Hmissing. unfold run.
  destruct (script_missing_key w inp (initialize_session_state raw) store
              Hstore Hmissing)
    as (key & Hkey & Hnone & Hfirst & Hscript).
  exists key. rewrite Hscript. cbn [snd].
  split; [done|]. split; [done|]. split; [done|]. split; [done|]. split.
  - unfold missing_key_elements. repeat constructor.
  - by apply interact_settle.
Qed.

(** C4: while the flag is set the Find Prospects button is rendered
    disabled and reports no click, so the submit branch does nothing (same
    state, no call, no rerun) and a run that carries a click is the run
    without it. An execution of the script calls [kickoff] at most once, and
    so does a whole interaction, which always ends within three runs. *)
Theorem C4_submit_while_running_is_a_no_op
    (w : World) (company : string) (clear : bool) (s : SessionState) :
  is_running s = true →
  find_disabled (mkInputs company true clear) s = true
  ∧ (∀ b s1 out,
       column1 (mkInputs company true clear) s = (Return b, s1, out) →
       b = false ∧ s1 = s
       ∧ st_button FindProspects true ∈ out
       ∧ st_button FindProspects false ∉ out)
  ∧ on_submit (mkInputs company true clear) false s = (Return tt, s, [])
  ∧ script w (mkInputs company true clear) s
    = script w (mkInputs company false clear) s
  ∧ (∀ w' inp' s', kickoffs (script w' inp' s').2 ≤ 1)
  ∧ (∀ w' inp' s', ∃ r s'' out,
       interact 3 w' inp' s' = (Some r, s'', out) ∧ kickoffs out ≤ 1).
Proof.
  intros Hrun.
  assert (Hdis : ∀ find, find_disabled (mkInputs company find clear) s = true).
  { intros find. unfold find_disabled. rewrite Hrun. apply orb_true_r. }
  split; [apply Hdis|]. split; [|split; [|split; [|split]]].
  - intros b s1 out. rewrite column1_run.
    destruct (results_truthy s && _) eqn:Hclear; [done|].
    intros [= <- <- <-]. rewrite Hdis. split; [done|]. split; [done|].
    unfold column1_elements. rewrite Hdis, Hrun.
    rewrite !elem_of_app, !elem_of_cons.
    split; [by left; right; right; left|].
    destruct (results_truthy s);
      rewrite ?elem_of_cons, ?elem_of_nil; intuition congruence.
  - by rewrite on_submit_run.
  - rewrite !script_run. unfold script_cases, main_interface_cases.
    rewrite !Hdis. unfold column1_elements, crew_events. rewrite !Hdis.
    reflexivity.
  - apply kickoffs_script.
  - apply interact_settles.
Qed.

(** C10: the session state keeps no copy of the query. With results stored
    and nothing clicked, the run offers exactly one download, the stored
    results under the file name of the text field's value in this run,
    whatever query produced them; and a run that finds the flag set and
    reaches the crew calls [kickoff] once, with the text field's value in
    this run. *)
Theorem C10_field_value_is_read_at_execution
    (w : World) (inp : Inputs) (s : SessionState) (k1 k2 : string) :
  secrets w !! "OPENAI_API_KEY" = Some k1 →
  secrets w !! "EXA_API_KEY" = Some k2 →
  (∀ r, results s = Some r → bool_of r = true → is_running s = false →
        find_clicked inp = false → clear_clicked inp = false →
        ∃ out,
          script w inp s = (Return tt, s, out)
          ∧ downloads out = [(str_of r, file_name (company_name inp))])
  ∧ (∀ crew, crew_setup w = inr crew → is_running s = true →
        results_truthy s && clear_clicked inp = false →
        ∃ r s' out,
          script w inp s = (r, s', out)
          ∧ kickoff_companies out = [company_name inp]).
Proof.
  intros H1 H2. split.
  - intros r Hres Hbool Hidle Hfind Hclick.
    eexists. split.
    + apply (script_quiet w inp s k1 k2 H1 H2); [|by rewrite Hfind|done].
      by rewrite Hclick, andb_false_r.
    + rewrite !downloads_app, downloads_column1.
      unfold display_elements. by rewrite Hres, Hbool.
  - intros crew Hcrew Hrun Hclear.
    eexists _, _, _. split.
    + apply (script_running w inp s k1 k2 H1 H2 Hclear Hrun).
    + rewrite !kickoff_companies_app, kickoff_companies_column1.
      unfold crew_events. rewrite Hcrew.
      by destruct (crew_call w (company_name inp)).
Qed.

End WithRuntime.

(** *** The download file name *)

Lemma replace_char (a b : ascii) (s : string) :
  replace (String a "") (String b "") s
  = map_chars (λ c, if decide (c = a) then b else c) s.
Proof.
  unfold replace. induction s as [|c s IH]; [done|].
  cbn [replace_go startswith map_chars].
  destruct (decide (a = c)) as [->|Hne].
  - rewrite decide_True by done. cbn [String.length]. by rewrite IH.
  - rewrite decide_False by congruence. by rewrite IH.
Qed.

Lemma length_map_chars (f : ascii → ascii) (s : string) :
  String.length (map_chars f s) = String.length s.
Proof. induction s as [|c s IH]; simpl; [done | by rewrite IH]. Qed.

Lemma has_char_append (c : ascii) (a b : string) :
  has_char c (a +:+ b) = has_char c a || has_char c b.
Proof.
  induction a as [|x a IH]; [done|].
  rewrite append_cons. simpl. by destruct (decide (c = x)).
Qed.

(** A replaced character does not occur in the result, unless it is the
    replacement itself. *)
Lemma has_char_replaced (a b : ascii) (s : string) :
  a ≠ b →
  has_char a (map_chars (λ c, if decide (c = a) then b else c) s) = false.
Proof.
  intros Hab. induction s as [|c s IH]; [done|].
  simpl. rewrite IH.
  destruct (decide (c = a)) as [->|Hne].
  - by rewrite decide_False.
  - by rewrite decide_False by congruence.
Qed.

Lemma has_char_map_chars (f : ascii → ascii) (c : ascii) (s : string) :
  has_char c (map_chars f s) = true → ∃ d, c = f d.
Proof.
  induction s as [|x s IH]; [done|].
  simpl. destruct (decide (c = f x)) as [->|Hne]; eauto.
Qed.

(** [lower_ascii_char] never gives a capital letter. *)
Lemma lower_ascii_char_not_upper (c : ascii) : ¬ is_upper (lower_ascii_char c).
Proof.
  unfold is_upper, lower_ascii_char.
  destruct (decide (65 ≤ nat_of_ascii c ≤ 90)) as [Hup|Hno]; [|done].
  rewrite nat_ascii_embedding by lia. lia.
Qed.

Lemma map_chars_compose (f g : ascii → ascii) (s : string) :
  map_chars f (map_chars g s) = map_chars (λ c, f (g c)) s.
Proof. induction s as [|c s IH]; simpl; [done | by rewrite IH]. Qed.

(** A string that [lower_ascii] leaves as it is has no capital letter. *)
Lemma lower_ascii_fixed_not_upper (c : ascii) (s : string) :
  lower_ascii s = s → has_char c s = true → ¬ is_upper c.
Proof.
  induction s as [|x s IH]; [done|].
  unfold lower_ascii. simpl. intros [= Hx Hs].
  destruct (decide (c = x)) as [->|Hne]; [|by apply IH].
  intros _. rewrite <- Hx. apply lower_ascii_char_not_upper.
Qed.

(** C5: for every company name the download file name is the prefix
    [linkedin_prospects_], then the lowercased name with each blank turned
    into an underscore and nothing else changed (same length), then [.md];
    no blank is left in the file name. For [Acme Corp] it is
    [linkedin_prospects_acme_corp.md], and on ASCII text no capital letter
    is left either. *)
Theorem C5_download_file_name `{RT : Runtime} (company : string) :
  file_name company
  = "linkedin_prospects_"
    +:+ map_chars (λ c, if decide (c = " "%char) then "_"%char else c)
          (lower company)
    +:+ ".md"
  ∧ String.length (replace " " "_" (lower company))
    = String.length (lower company)
  ∧ has_char " " (file_name company) = false
  ∧ file_name (RT := ascii_runtime) "Acme Corp"
    = "linkedin_prospects_acme_corp.md"
  ∧ (∀ c, has_char c (file_name (RT := ascii_runtime) company) = true →
          ¬ is_upper c).
Proof.
  unfold file_name. rewrite !replace_char.
  split; [done|]. split; [apply length_map_chars|]. split; [|split].
  - rewrite !has_char_append, has_char_replaced by done. reflexivity.
  - reflexivity.
  - intros c. rewrite !has_char_append, !orb_true_iff.
    intros [Hpre|[Hmid|Hsuf]].
    + by apply (lower_ascii_fixed_not_upper c "linkedin_prospects_").
    + cbn [lower ascii_runtime] in Hmid. unfold lower_ascii in Hmid.
      rewrite map_chars_compose in Hmid.
      apply has_char_map_chars in Hmid as [d ->].
      destruct (decide (lower_ascii_char d = " "%char)).
      * unfold is_upper. change (nat_of_ascii "_") with 95. lia.
      * apply lower_ascii_char_not_upper.
    + by apply (lower_ascii_fixed_not_upper c ".md").
Qed.

(** *** The claims at concrete inputs *)

Lemma C3_witness :
  ∃ out out',
    script failing_world (mkInputs "Acme Corp" false false)
      (ascii_session (Some "Earlier prospects") true)
    = (Raise RerunException, ascii_session (Some "Earlier prospects") false, out)
    ∧ st_error "An error occurred: Connection error" ∈ out
    ∧ running (ascii_session (Some "Earlier prospects") true) = true
    ∧ idle (ascii_session (Some "Earlier prospects") false) = true
    ∧ interact 3 failing_world (mkInputs "Acme Corp" false false)
        (ascii_session (Some "Earlier prospects") true)
      = (Some (Return tt), ascii_session (Some "Earlier prospects") false,
         out ++ out')
    ∧ kickoffs (out ++ out') ≤ 1.
Proof.
  apply (C3_failure_clears_the_flag_and_keeps_results
           (RT := ascii_runtime) failing_world
           (mkInputs "Acme Corp" false false)
           (ascii_session (Some "Earlier prospects") true)
           "sk-openai" "exa-key" (OtherException "Connection error"));
    reflexivity.
Defined.

Lemma C8_witness :
  ∃ out,
    script reporting_world (mkInputs "Acme Corp" false true)
      (ascii_session (Some "Prospects at Acme Corp") false)
    = (Raise RerunException, ascii_session None false, out)
    ∧ idle (ascii_session None false) = true
    ∧ displaying (ascii_session None false) = false
    ∧ interact 3 reporting_world (mkInputs "Acme Corp" false true)
        (ascii_session (Some "Prospects at Acme Corp") false)
      = (Some (Return tt), ascii_session None false,
         out ++ setup_elements "sk-openai" "exa-key"
         ++ [ st_subheader "Company Search";
              st_text_input "Enter Company Name:";
              st_button FindProspects false ]
         ++ column2_elements ++ sidebar_elements)
    ∧ kickoffs out = 0.
Proof.
  apply (C8_clear_leaves_displaying_for_idle
           (RT := ascii_runtime) reporting_world
           (mkInputs "Acme Corp" false true)
           (ascii_session (Some "Prospects at Acme Corp") false)
           "sk-openai" "exa-key");
    reflexivity.
Defined.

Lemma C7_witness :
  secrets no_secrets_file_world !! "OPENAI_API_KEY" = None
  ∧ secrets no_secrets_file_world !! "EXA_API_KEY" = None
  ∧ run no_secrets_file_world (mkInputs "Acme Corp" true false) (mkRaw None None)
    = (Raise (Exc (StreamlitSecretNotFoundError "No secrets found.")),
       ascii_session None false,
       [st_title; st_static Tagline])
  ∧ (run no_secrets_file_world (mkInputs "Acme Corp" true false)
       (mkRaw None None)).1.1 ≠ Raise StopException
  ∧ errors (run no_secrets_file_world (mkInputs "Acme Corp" true false)
              (mkRaw None None)).2 = []
  ∧ api_key_setup no_secrets_file_world (ascii_session None false)
    = (Raise (Exc (StreamlitSecretNotFoundError "No secrets found.")),
       ascii_session None false, []).
Proof.
  apply (C7_without_a_secrets_file_the_handler_does_not_run
           (RT := ascii_runtime) no_secrets_file_world
           (mkInputs "Acme Corp" true false) (mkRaw None None)
           "No secrets found.").
  reflexivity.
Defined.

Lemma X16_witness :
  ∃ key,
    (key = "OPENAI_API_KEY" ∨ key = "EXA_API_KEY")
    ∧ ({[ "OPENAI_API_KEY" := "sk-openai" ]} : gmap string string) !! key = None
    ∧ (({[ "OPENAI_API_KEY" := "sk-openai" ]} : gmap string string)
         !! "OPENAI_API_KEY" = None → key = "OPENAI_API_KEY")
    ∧ run no_exa_key_world (mkInputs "Acme Corp" true false) (mkRaw None None)
      = (Raise StopException, ascii_session None false,
         [ st_title; st_static Tagline;
           st_error ("Missing API key in secrets: "
                     +:+ key_error_text (Runtime := ascii_runtime) key);
           st_info "Please add your API keys to Streamlit secrets:";
           st_code
             (String "010" "    # .streamlit/secrets.toml"
              +:+ String "010" "    OPENAI_API_KEY = "
              +:+ String "034" "your-openai-api-key"
              +:+ String "034" (String "010" "    EXA_API_KEY = ")
              +:+ String "034" "your-exa-api-key"
              +:+ String "034" (String "010" "    ")) ])
    ∧ Forall (λ el, is_widget el = false ∧ is_kickoff el = false)
        (run no_exa_key_world (mkInputs "Acme Corp" true false)
           (mkRaw None None)).2
    ∧ interact 3 no_exa_key_world (mkInputs "Acme Corp" true false)
        (ascii_session None false)
      = (Some (Raise StopException), ascii_session None false,
         (run no_exa_key_world (mkInputs "Acme Corp" true false)
            (mkRaw None None)).2).
Proof.
  apply (X16_missing_key_in_the_store_stops_the_script
           (RT := ascii_runtime) no_exa_key_world
           (mkInputs "Acme Corp" true false) (mkRaw None None)
           {[ "OPENAI_API_KEY" := "sk-openai" ]} eq_refl).
  right. reflexivity.
Defined.

Lemma C4_witness :
  find_disabled (mkInputs "Acme Corp" true false) (ascii_session None true) = true
  ∧ script reporting_world (mkInputs "Acme Corp" true false) (ascii_session None true)
    = script reporting_world (mkInputs "Acme Corp" false false) (ascii_session None true).
Proof.
  pose proof (C4_submit_while_running_is_a_no_op
                (RT := ascii_runtime) reporting_world "Acme Corp" false
                (ascii_session None true) eq_refl)
    as (Hdisabled & _ & _ & Hsame & _).
  split; [exact Hdisabled | exact Hsame].
Defined.

Lemma C10_witness :
  (∃ out,
     script reporting_world (mkInputs "Globex" false false)
       (ascii_session (Some "Prospects at Acme Corp") false)
     = (Return tt, ascii_session (Some "Prospects at Acme Corp") false, out)
     ∧ downloads out
       = [("Prospects at Acme Corp", "linkedin_prospects_globex.md")])
  ∧ (interact 3 reporting_world (mkInputs "Acme Corp" true false)
       (ascii_session None false)).1.2
    = ascii_session (Some "Prospects at Acme Corp") false.
Proof.
  split; [|reflexivity].
  destruct (C10_field_value_is_read_at_execution
              (RT := ascii_runtime) reporting_world
              (mkInputs "Globex" false false)
              (ascii_session (Some "Prospects at Acme Corp") false)
              "sk-openai" "exa-key" eq_refl eq_refl)
    as [Hdownload _].
  apply (Hdownload "Prospects at Acme Corp"); reflexivity.
Defined.

(** ** Further properties of the script *)

Section MoreProperties.
Context `{RT : Runtime}.

Lemma errors_app (a b : list Element) : errors (a ++ b) = errors a ++ errors b.
Proof.
  induction a as [|e a IH]; [done|].
  destruct e; simpl; by rewrite ?IH.
Qed.

(** What the blocks below the key setup contribute to each view. *)
Lemma errors_column1 (inp : Inputs) (s : SessionState) :
  errors (column1_elements inp s) = [].
Proof.
  unfold column1_elements.
  by destruct (is_running s), (results_truthy s).
Qed.

Lemma display_views (inp : Inputs) (s : SessionState) :
  kickoff_companies (display_elements inp s) = []
  ∧ errors (display_elements inp s) = []
  ∧ downloads (display_elements inp s) = offered (company_name inp) s.
Proof.
  unfold display_elements, offered.
  destruct (results s) as [r|]; [destruct (bool_of r)|]; done.
Qed.

Lemma crew_events_views (w : World) (inp : Inputs) :
  kickoff_companies (crew_events w inp)
  = match crew_setup w with
    | inl _ => []
    | inr _ => [company_name inp]
    end
  ∧ errors (crew_events w inp) = []
  ∧ downloads (crew_events w inp) = [].
Proof. unfold crew_events. by destruct (crew_setup w). Qed.

(** Computes a view of the trace of a case of the decision table. *)
Ltac view_of_case :=
  cbn [fst snd];
  rewrite ?kickoff_companies_app, ?downloads_app, ?errors_app;
  rewrite ?kickoff_companies_column1, ?downloads_column1, ?errors_column1,
    ?(proj1 (display_views _ _)),
    ?(proj1 (proj2 (display_views _ _))),
    ?(proj2 (proj2 (display_views _ _))),
    ?(proj1 (crew_events_views _ _)),
    ?(proj1 (proj2 (crew_events_views _ _))),
    ?(proj2 (proj2 (crew_events_views _ _)));
  cbn [setup_elements column2_elements sidebar_elements missing_key_elements
       kickoff_companies downloads errors app];
  rewrite ?app_nil_r.

(** The views of the part of a run below the key setup. *)
Lemma main_interface_views (w : World) (inp : Inputs) (s : SessionState) :
  downloads (main_interface_cases w inp s).2
  = match (main_interface_cases w inp s).1.1 with
    | Return _ => offered (company_name inp) s
    | Raise _ => []
    end
  ∧ errors (main_interface_cases w inp s).2
    = (if negb (clears inp s) && is_running s
       then match crew_call w (company_name inp) with
            | inl e => ["An error occurred: " +:+ str_of_exception e]
            | inr _ => []
            end
       else []).
Proof.
  unfold main_interface_cases, clears.
  destruct (results_truthy s && clear_clicked inp); [by view_of_case|].
  destruct (find_clicked inp && negb (find_disabled inp s)
            && truthy (company_name inp)) eqn:Hsubmit.
  { view_of_case. split; [done|].
    destruct (is_running s) eqn:Hrun; [|done].
    unfold find_disabled in Hsubmit.
    by rewrite Hrun, orb_true_r, andb_false_r in Hsubmit. }
  destruct (is_running s); [|by view_of_case].
  destruct (crew_call w (company_name inp)); by view_of_case.
Qed.

(** *** Whole interactions *)

Lemma after_rerun_inputs (inp : Inputs) :
  after_rerun inp = mkInputs (company_name inp) false false.
Proof. reflexivity. Qed.

Lemma interact_quiet_views (n : nat) (w : World) (company : string)
    (s : SessionState) (k1 k2 : string) :
  secrets w !! "OPENAI_API_KEY" = Some k1 →
  secrets w !! "EXA_API_KEY" = Some k2 →
  is_running s = false →
  ∃ out,
    interact (S n) w (mkInputs company false false) s
    = (Some (Return tt), s, out)
    ∧ kickoff_companies out = []
    ∧ downloads out = offered company s.
Proof.
  intros H1 H2 Hidle.
  pose proof (script_quiet w (mkInputs company false false) s k1 k2 H1 H2
                (andb_false_r _) eq_refl Hidle) as Hscript.
  eexists. split; [by apply (interact_settle n _ _ _ _ _ _ Hscript)|].
  by view_of_case.
Qed.

Lemma interact_running_views (n : nat) (w : World) (inp : Inputs)
    (s : SessionState) (k1 k2 : string) :
  secrets w !! "OPENAI_API_KEY" = Some k1 →
  secrets w !! "EXA_API_KEY" = Some k2 →
  is_running s = true →
  clears inp s = false →
  ∃ out,
    interact (S (S n)) w inp s
    = (Some (Return tt),
       {| results := match crew_call w (company_name inp) with
                     | inr result => Some result
                     | inl _ => results s
                     end;
          is_running := false |},
       out)
    ∧ kickoff_companies out
      = match crew_setup w with
        | inl _ => []
        | inr _ => [company_name inp]
        end
    ∧ downloads out
      = offered (company_name inp)
          {| results := match crew_call w (company_name inp) with
                        | inr result => Some result
                        | inl _ => results s
                        end;
             is_running := false |}.
Proof.
  intros H1 H2 Hrun Hclear.
  pose proof (script_running w inp s k1 k2 H1 H2 Hclear Hrun) as Hscript.
  rewrite (interact_rerun (S n) _ _ _ _ _ Hscript), after_rerun_inputs.
  match goal with
  | |- context [interact (S n) w _ ?s1] =>
      destruct (interact_quiet_views n w (company_name inp) s1 k1 k2 H1 H2 eq_refl)
        as (out & -> & Hk & Hd)
  end.
  cbn [fst snd]. eexists. split; [done|].
  rewrite !kickoff_companies_app, !downloads_app, Hk, Hd.
  split.
  - destruct (crew_call w (company_name inp)); by view_of_case.
  - destruct (crew_call w (company_name inp)); by view_of_case.
Qed.

(** With no key missing, every interaction ends within three runs by a run
    that returns, in the state [interaction_final]; [kickoff] is called
    exactly when the interaction searches and the crew can be built, with
    the value of the text field, and the only download offered is that of
    the final state. *)
Lemma interact_final (w : World) (inp : Inputs) (s : SessionState)
    (k1 k2 : string) :
  secrets w !! "OPENAI_API_KEY" = Some k1 →
  secrets w !! "EXA_API_KEY" = Some k2 →
  ∃ out,
    interact 3 w inp s = (Some (Return tt), interaction_final w inp s, out)
    ∧ kickoff_companies out
      = (if searches inp s
         then match crew_setup w with
              | inl _ => []
              | inr _ => [company_name inp]
              end
         else [])
    ∧ downloads out = offered (company_name inp) (interaction_final w inp s).
Proof.
  intros H1 H2. unfold interaction_final, searches, after_clear.
  destruct (clears inp s) eqn:Hclear.
  { pose proof (script_clear w inp s k1 k2 H1 H2 Hclear) as Hscript.
    rewrite (interact_rerun 2 _ _ _ _ _ Hscript), after_rerun_inputs.
    cbn [negb andb]. rewrite orb_false_r.
    destruct (is_running s) eqn:Hrun.
    - destruct (interact_running_views 0 w (mkInputs (company_name inp) false false)
                  {| results := None; is_running := true |} k1 k2 H1 H2
                  eq_refl eq_refl) as (out & -> & Hk & Hd).
      cbn [fst snd company_name results] in *. eexists. split; [done|].
      rewrite !kickoff_companies_app, !downloads_app, Hk, Hd.
      by view_of_case.
    - destruct (interact_quiet_views 1 w (company_name inp)
                  {| results := None; is_running := false |} k1 k2 H1 H2
                  eq_refl) as (out & -> & Hk & Hd).
      cbn [fst snd]. eexists. split; [done|].
      rewrite !kickoff_companies_app, !downloads_app, Hk, Hd.
      by view_of_case. }
  cbn [negb andb].
  destruct (is_running s) eqn:Hrun.
  { cbn [orb].
    by destruct (interact_running_views 1 w inp s k1 k2 H1 H2 Hrun Hclear)
      as (out & -> & Hk & Hd); eexists. }
  cbn [orb].
  destruct (find_clicked inp && truthy (company_name inp)) eqn:Hfind.
  { apply andb_true_iff in Hfind as [Hfind Hname].
    pose proof (script_submit w inp s k1 k2 H1 H2 Hclear Hfind Hname Hrun)
      as Hscript.
    rewrite (interact_rerun 2 _ _ _ _ _ Hscript), after_rerun_inputs.
    destruct (interact_running_views 0 w (mkInputs (company_name inp) false false)
                {| results := results s; is_running := true |} k1 k2 H1 H2
                eq_refl (andb_false_r _)) as (out & -> & Hk & Hd).
    cbn [fst snd company_name results] in *. eexists. split; [done|].
    rewrite !kickoff_companies_app, !downloads_app, Hk, Hd.
    by view_of_case. }
  pose proof (script_quiet w inp s k1 k2 H1 H2 Hclear Hfind Hrun) as Hscript.
  eexists. split; [by apply (interact_settle 2 _ _ _ _ _ _ Hscript)|].
  by view_of_case.
Qed.

(** *** Properties of single runs *)

(** X2: a run that returns (it neither reruns nor stops) has left the
    session state as it found it, has rendered no error and has not called
    [kickoff]. *)
Theorem X2_a_run_that_returns_changes_nothing
    (w : World) (inp : Inputs) (s : SessionState) :
  (script w inp s).1.1 = Return tt →
  (script w inp s).1.2 = s
  ∧ errors (script w inp s).2 = []
  ∧ kickoff_companies (script w inp s).2 = [].
Proof.
  rewrite script_run, script_cases_by_keys.
  destruct (secrets w !! "OPENAI_API_KEY"); [|by destruct (secrets_store w)].
  destruct (secrets w !! "EXA_API_KEY"); [|done].
  unfold main_interface_cases.
  destruct (results_truthy s && clear_clicked inp); [done|].
  destruct (find_clicked inp && negb (find_disabled inp s)
            && truthy (company_name inp)); [done|].
  destruct (is_running s).
  { by destruct (crew_call w (company_name inp)). }
  intros _. by view_of_case.
Qed.

(** X3: a download is offered only by a run that returns, and then it is
    the stored results, if they are true, under the file name of the text
    field's value; a run that reruns or stops offers none. *)
Theorem X3_download_only_on_a_run_that_returns
    (w : World) (inp : Inputs) (s : SessionState) :
  downloads (script w inp s).2
  = match (script w inp s).1.1 with
    | Return _ => offered (company_name inp) s
    | Raise _ => []
    end.
Proof.
  rewrite script_run, script_cases_by_keys.
  destruct (secrets w !! "OPENAI_API_KEY"); [|by destruct (secrets_store w)].
  destruct (secrets w !! "EXA_API_KEY"); [|done].
  pose proof (main_interface_views w inp s) as (Hdown & _).
  cbn [fst snd]. by rewrite downloads_app, Hdown.
Qed.

(** X4: the message of a failed search is rendered by the run that ends in
    [st.rerun()], and the run that follows renders the page without it. *)
Theorem X4_failure_message_is_gone_after_the_rerun
    (w : World) (inp : Inputs) (s : SessionState) (k1 k2 : string)
    (e : Exception) :
  secrets w !! "OPENAI_API_KEY" = Some k1 →
  secrets w !! "EXA_API_KEY" = Some k2 →
  is_running s = true →
  clears inp s = false →
  crew_call w (company_name inp) = inl e →
  (script w inp s).1.1 = Raise RerunException
  ∧ errors (script w inp s).2
    = ["An error occurred: " +:+ str_of_exception e]
  ∧ (script w (after_rerun inp) (script w inp s).1.2).1.1 = Return tt
  ∧ errors (script w (after_rerun inp) (script w inp s).1.2).2 = [].
Proof.
  intros H1 H2 Hrun Hclear Hcall.
  pose proof (script_running w inp s k1 k2 H1 H2 Hclear Hrun) as Hscript.
  rewrite Hcall in Hscript. rewrite Hscript. cbn [fst snd].
  split; [done|]. split; [by view_of_case|].
  pose proof (script_quiet w (after_rerun inp)
                {| results := results s; is_running := false |} k1 k2 H1 H2
                (andb_false_r _) eq_refl eq_refl) as Hnext.
  rewrite Hnext. split; [done|]. by view_of_case.
Qed.

(** X5: a click on Clear Results cannot have an effect when there are no
    true results: the button is not rendered, and the run is the run without
    the click. *)
Theorem X5_clear_without_results_is_ignored
    (w : World) (company : string) (find : bool) (s : SessionState) :
  results_truthy s = false →
  (st_button ClearResults false
   ∉ column1_elements (mkInputs company find true) s)
  ∧ script w (mkInputs company find true) s
    = script w (mkInputs company find false) s.
Proof.
  intros Hres. split.
  - unfold column1_elements. rewrite Hres.
    rewrite !elem_of_app, !elem_of_cons.
    destruct (is_running s);
      rewrite ?elem_of_cons, ?elem_of_nil; intuition congruence.
  - rewrite !script_run. unfold script_cases, main_interface_cases.
    unfold column1_elements, display_elements, find_disabled.
    cbn [company_name find_clicked clear_clicked]. by rewrite Hres.
Qed.

(** X6: with an empty text field the Find Prospects button is disabled and
    a click on it is lost: the run is the run without the click, in every
    session state. *)
Theorem X6_submit_with_empty_company_is_ignored
    (w : World) (clear : bool) (s : SessionState) :
  find_disabled (mkInputs "" true clear) s = true
  ∧ script w (mkInputs "" true clear) s = script w (mkInputs "" false clear) s.
Proof.
  split; [done|].
  rewrite !script_run. unfold script_cases, main_interface_cases.
  unfold column1_elements, display_elements, find_disabled.
  cbn [company_name find_clicked clear_clicked truthy negb orb andb].
  reflexivity.
Qed.

(** *** Properties of whole interactions *)

(** X7: a valid submit from an idle session (Find Prospects clicked on a
    non-empty company name, no results cleared in the same run) whose crew
    returns [result] ends, three runs later, with [result] stored and the
    flag unset; [kickoff] was called once, with the company name; and the
    results are offered for download under that company's file name when
    they are true, and not shown at all when they are not. *)
Theorem X7_successful_search_is_stored_and_offered
    (w : World) (inp : Inputs) (s : SessionState) (k1 k2 : string)
    (result : CrewOutput) :
  secrets w !! "OPENAI_API_KEY" = Some k1 →
  secrets w !! "EXA_API_KEY" = Some k2 →
  is_running s = false →
  clears inp s = false →
  find_clicked inp = true →
  truthy (company_name inp) = true →
  crew_call w (company_name inp) = inr result →
  ∃ out,
    interact 3 w inp s
    = (Some (Return tt), {| results := Some result; is_running := false |}, out)
    ∧ kickoff_companies out = [company_name inp]
    ∧ downloads out
      = (if bool_of result
         then [(str_of result, file_name (company_name inp))]
         else []).
Proof.
  intros H1 H2 Hidle Hclear Hfind Hname Hcall.
  destruct (interact_final w inp s k1 k2 H1 H2) as (out & Hint & Hk & Hd).
  unfold interaction_final, searches in *.
  rewrite Hidle, Hclear, Hfind, Hname, Hcall in *. cbn [orb andb negb] in *.
  exists out. split; [done|]. split; [|done].
  unfold crew_call in Hcall. by destruct (crew_setup w).
Qed.

(** X8: from an idle session, an interaction without a valid submit (Find
    Prospects not clicked, or the text field empty) never calls [kickoff]:
    it ends with the flag unset and the results as they were, or cleared if
    Clear Results was clicked on true results. *)
Theorem X8_no_search_without_a_valid_submit
    (w : World) (inp : Inputs) (s : SessionState) (k1 k2 : string) :
  secrets w !! "OPENAI_API_KEY" = Some k1 →
  secrets w !! "EXA_API_KEY" = Some k2 →
  is_running s = false →
  find_clicked inp = false ∨ company_name inp = "" →
  ∃ out,
    interact 3 w inp s = (Some (Return tt), after_clear inp s, out)
    ∧ is_running (after_clear inp s) = false
    ∧ kickoff_companies out = [].
Proof.
  intros H1 H2 Hidle Hnone.
  destruct (interact_final w inp s k1 k2 H1 H2) as (out & Hint & Hk & _).
  assert (Hsearch : searches inp s = false).
  { unfold searches. rewrite Hidle.
    destruct Hnone as [->| ->]; [by rewrite andb_false_r|].
    by rewrite andb_false_r. }
  unfold interaction_final in *. rewrite Hsearch in *.
  exists out. split; [done|]. split; [|done].
  unfold after_clear. by destruct (clears inp s).
Qed.

(** X9: with no key missing, every interaction ends by a run that returns,
    with the flag unset, and with results that are the earlier ones, or
    [None] after a click on Clear Results that was rendered, or the output
    of the crew for the text field's value. *)
Theorem X9_interaction_ends_idle_with_results_of_known_origin
    (w : World) (inp : Inputs) (s : SessionState) (k1 k2 : string) :
  secrets w !! "OPENAI_API_KEY" = Some k1 →
  secrets w !! "EXA_API_KEY" = Some k2 →
  ∃ final out,
    interact 3 w inp s = (Some (Return tt), final, out)
    ∧ is_running final = false
    ∧ (results final = results s
       ∨ (results final = None ∧ clears inp s = true)
       ∨ (∃ result, crew_call w (company_name inp) = inr result
                    ∧ results final = Some result)).
Proof.
  intros H1 H2.
  destruct (interact_final w inp s k1 k2 H1 H2) as (out & Hint & _).
  exists (interaction_final w inp s), out. split; [done|].
  unfold interaction_final, searches, after_clear.
  destruct (clears inp s) eqn:Hclear, (is_running s) eqn:Hrun;
    cbn [orb andb negb results is_running];
    try (destruct (find_clicked inp && truthy (company_name inp)));
    try (destruct (crew_call w (company_name inp)) as [e|result]);
    cbn [results is_running]; rewrite ?Hrun; eauto 6.
Qed.

(** X10: when [setup_crew()] raises, [kickoff] is never called: whatever
    is clicked, the interaction ends with the flag unset and the results as
    they were (or cleared by a click on Clear Results). *)
Theorem X10_no_kickoff_when_the_crew_cannot_be_built
    (w : World) (inp : Inputs) (s : SessionState) (k1 k2 : string)
    (e : Exception) :
  secrets w !! "OPENAI_API_KEY" = Some k1 →
  secrets w !! "EXA_API_KEY" = Some k2 →
  crew_setup w = inl e →
  ∃ out,
    interact 3 w inp s
    = (Some (Return tt),
       {| results := results (after_clear inp s); is_running := false |}, out)
    ∧ kickoff_companies out = [].
Proof.
  intros H1 H2 Hsetup.
  destruct (interact_final w inp s k1 k2 H1 H2) as (out & Hint & Hk & _).
  rewrite Hsetup in Hk.
  exists out. split; [|by destruct (searches inp s)].
  rewrite Hint. do 2 f_equal.
  unfold interaction_final, crew_call. rewrite Hsetup.
  destruct (searches inp s) eqn:Hsearch; [done|].
  unfold searches in Hsearch. apply orb_false_iff in Hsearch as [Hrun _].
  unfold after_clear. destruct (clears inp s); cbn [results is_running];
    [by rewrite Hrun|].
  destruct s as [res running]. cbn in *. by subst.
Qed.

(** X15: a valid submit from a session that shows earlier results [r],
    whose search fails, ends with [r] still stored, and the page offers [r]
    for download under the file name of the company just searched for. *)
Theorem X15_failed_search_offers_earlier_results_under_new_name
    (w : World) (inp : Inputs) (s : SessionState) (k1 k2 : string)
    (r : CrewOutput) (e : Exception) :
  secrets w !! "OPENAI_API_KEY" = Some k1 →
  secrets w !! "EXA_API_KEY" = Some k2 →
  results s = Some r →
  bool_of r = true →
  is_running s = false →
  clear_clicked inp = false →
  find_clicked inp = true →
  truthy (company_name inp) = true →
  crew_call w (company_name inp) = inl e →
  ∃ out,
    interact 3 w inp s
    = (Some (Return tt), {| results := Some r; is_running := false |}, out)
    ∧ downloads out = [(str_of r, file_name (company_name inp))].
Proof.
  intros H1 H2 Hres Hbool Hidle Hclick Hfind Hname Hcall.
  destruct (interact_final w inp s k1 k2 H1 H2) as (out & Hint & _ & Hd).
  assert (Hclear : clears inp s = false)
    by (unfold clears; by rewrite Hclick, andb_false_r).
  unfold interaction_final, searches, after_clear, offered in *.
  rewrite Hidle, Hclear, Hfind, Hname, Hcall, Hres in *.
  cbn [orb andb negb results] in *. rewrite Hbool in Hd.
  by exists out.
Qed.

End MoreProperties.

(** X11: on ASCII text the file name is an image of the company name
    character by character: it is 22 characters longer than the name, and
    names that differ only in the case of letters, or in having an
    underscore where the other has a blank, get the same file name. *)
Theorem X11_file_name_is_characterwise_on_ascii (company : string) :
  String.length (file_name (RT := ascii_runtime) company)
  = String.length company + 22
  ∧ file_name (RT := ascii_runtime) (lower_ascii company)
    = file_name (RT := ascii_runtime) company
  ∧ file_name (RT := ascii_runtime) (replace " " "_" company)
    = file_name (RT := ascii_runtime) company.
Proof.
  unfold file_name. cbn [lower ascii_runtime]. unfold lower_ascii.
  rewrite !replace_char, !map_chars_compose.
  split; [|split].
  - rewrite !length_append, length_map_chars. simpl. lia.
  - do 2 f_equal. induction company as [|c company IH]; [done|].
    cbn [map_chars]. rewrite IH. f_equal.
    assert (Hidem : lower_ascii_char (lower_ascii_char c) = lower_ascii_char c);
      [|by rewrite Hidem].
    pose proof (lower_ascii_char_not_upper c) as Hlow.
    unfold is_upper in Hlow. unfold lower_ascii_char at 1.
    by rewrite decide_False.
  - do 2 f_equal. induction company as [|c company IH]; [done|].
    cbn [map_chars]. rewrite IH. f_equal.
    destruct (decide (c = " "%char)) as [->|Hne]; reflexivity.
Qed.

Lemma X2_witness :
  (script reporting_world (mkInputs "Acme Corp" false false)
     (ascii_session (Some "Prospects at Acme Corp") false)).1.2
  = ascii_session (Some "Prospects at Acme Corp") false
  ∧ errors (script reporting_world (mkInputs "Acme Corp" false false)
              (ascii_session (Some "Prospects at Acme Corp") false)).2 = []
  ∧ kickoff_companies
      (script reporting_world (mkInputs "Acme Corp" false false)
         (ascii_session (Some "Prospects at Acme Corp") false)).2 = [].
Proof.
  apply (X2_a_run_that_returns_changes_nothing
           (RT := ascii_runtime) reporting_world
           (mkInputs "Acme Corp" false false)
           (ascii_session (Some "Prospects at Acme Corp") false)).
  reflexivity.
Defined.

Lemma X4_witness :
  (script failing_world (mkInputs "Acme Corp" false false)
     (ascii_session None true)).1.1 = Raise RerunException
  ∧ errors (script failing_world (mkInputs "Acme Corp" false false)
              (ascii_session None true)).2
    = ["An error occurred: Connection error"]
  ∧ (script failing_world (after_rerun (mkInputs "Acme Corp" false false))
       (script failing_world (mkInputs "Acme Corp" false false)
          (ascii_session None true)).1.2).1.1 = Return tt
  ∧ errors (script failing_world (after_rerun (mkInputs "Acme Corp" false false))
              (script failing_world (mkInputs "Acme Corp" false false)
                 (ascii_session None true)).1.2).2 = [].
Proof.
  apply (X4_failure_message_is_gone_after_the_rerun
           (RT := ascii_runtime) failing_world
           (mkInputs "Acme Corp" false false) (ascii_session None true)
           "sk-openai" "exa-key" (OtherException "Connection error"));
    reflexivity.
Defined.

Lemma X5_witness :
  script reporting_world (mkInputs "Acme Corp" false true) (ascii_session None false)
  = script reporting_world (mkInputs "Acme Corp" false false) (ascii_session None false).
Proof.
  exact (proj2 (X5_clear_without_results_is_ignored
                  (RT := ascii_runtime) reporting_world "Acme Corp" false
                  (ascii_session None false) eq_refl)).
Defined.

Lemma X7_witness :
  ∃ out,
    interact 3 reporting_world (mkInputs "Acme Corp" true false)
      (ascii_session None false)
    = (Some (Return tt), ascii_session (Some "Prospects at Acme Corp") false, out)
    ∧ kickoff_companies out = ["Acme Corp"]
    ∧ downloads out
      = [("Prospects at Acme Corp", "linkedin_prospects_acme_corp.md")].
Proof.
  apply (X7_successful_search_is_stored_and_offered
           (RT := ascii_runtime) reporting_world
           (mkInputs "Acme Corp" true false) (ascii_session None false)
           "sk-openai" "exa-key" "Prospects at Acme Corp");
    reflexivity.
Defined.

Lemma X8_witness :
  ∃ out,
    interact 3 reporting_world (mkInputs "" true false)
      (ascii_session (Some "Prospects at Acme Corp") false)
    = (Some (Return tt), ascii_session (Some "Prospects at Acme Corp") false, out)
    ∧ is_running (ascii_session (Some "Prospects at Acme Corp") false) = false
    ∧ kickoff_companies out = [].
Proof.
  apply (X8_no_search_without_a_valid_submit
           (RT := ascii_runtime) reporting_world (mkInputs "" true false)
           (ascii_session (Some "Prospects at Acme Corp") false)
           "sk-openai" "exa-key"); try reflexivity.
  by right.
Defined.

Lemma X9_witness :
  ∃ final out,
    interact 3 failing_world (mkInputs "Acme Corp" true false)
      (ascii_session (Some "Earlier prospects") false)
    = (Some (Return tt), final, out)
    ∧ is_running final = false
    ∧ (results final = Some "Earlier prospects"
       ∨ (results final = None
          ∧ clears (mkInputs "Acme Corp" true false)
              (ascii_session (Some "Earlier prospects") false) = true)
       ∨ (∃ result, crew_call failing_world "Acme Corp" = inr result
                    ∧ results final = Some result)).
Proof.
  apply (X9_interaction_ends_idle_with_results_of_known_origin
           (RT := ascii_runtime) failing_world
           (mkInputs "Acme Corp" true false)
           (ascii_session (Some "Earlier prospects") false)
           "sk-openai" "exa-key");
    reflexivity.
Defined.

Lemma X10_witness :
  ∃ out,
    interact 3 broken_crew_world (mkInputs "Acme Corp" true false)
      (ascii_session None false)
    = (Some (Return tt), ascii_session None false, out)
    ∧ kickoff_companies out = [].
Proof.
  apply (X10_no_kickoff_when_the_crew_cannot_be_built
           (RT := ascii_runtime) broken_crew_world
           (mkInputs "Acme Corp" true false) (ascii_session None false)
           "sk-openai" "exa-key" (OtherException "Invalid model"));
    reflexivity.
Defined.

Lemma X15_witness :
  ∃ out,
    interact 3 failing_world (mkInputs "Globex" true false)
      (ascii_session (Some "Prospects at Acme Corp") false)
    = (Some (Return tt), ascii_session (Some "Prospects at Acme Corp") false, out)
    ∧ downloads out
      = [("Prospects at Acme Corp", "linkedin_prospects_globex.md")].
Proof.
  apply (X15_failed_search_offers_earlier_results_under_new_name
           (RT := ascii_runtime) failing_world
           (mkInputs "Globex" true false)
           (ascii_session (Some "Prospects at Acme Corp") false)
           "sk-openai" "exa-key" "Prospects at Acme Corp"
           (OtherException "Connection error"));
    reflexivity.
Defined.

End FlowControllerSpec.
